(** * VoIP pricing dashboard (sale.py): normaliser, filter cascade and views

    A shallow embedding of the data logic of [sale.py].

    - Text is [string]; the string primitives of Python that the script
      uses ([str.lower], [str.strip], [str.replace], [str.split] and the
      two [re.sub] calls) are written over [list ascii].  Characters are
      read as ASCII code points: a code above 127 has no case, is not a
      word character and is not white space.
    - A spreadsheet cell that may be empty is a [cell]: empty, [None] or
      text.  Numbers in the Name and Supplier columns are not modelled.
    - [Rate (inter)] is a decimal amount; it is kept as an exact rational
      ([Q]), reduced after each mean.  [Min Dur] and [Inc Dur] are [Z].
    - A data frame is the list of its rows in index order. *)

From Stdlib Require Import List Bool Arith ZArith QArith Qreduction Lia.
From Stdlib Require Import Ascii String.
From Stdlib Require Import Permutation Sorted.
Import ListNotations.

Local Close Scope Q_scope.
Local Open Scope string_scope.
Local Open Scope list_scope.

(** ** Python string primitives *)

Module Py.

Definition code (c : ascii) : nat := nat_of_ascii c.

(** [str.isspace] on ASCII: TAB, LF, VT, FF, CR, FS, GS, RS, US, SPACE.
    [str.strip()], [str.split()] and the class [\s] of [re] share it. *)
Definition is_space (c : ascii) : bool :=
  let n := code c in
  (((9 <=? n) && (n <=? 13)) || ((28 <=? n) && (n <=? 32)))%nat.

Definition is_upper (c : ascii) : bool :=
  let n := code c in ((65 <=? n) && (n <=? 90))%nat.

Definition is_lower (c : ascii) : bool :=
  let n := code c in ((97 <=? n) && (n <=? 122))%nat.

Definition is_digit (c : ascii) : bool :=
  let n := code c in ((48 <=? n) && (n <=? 57))%nat.

(** The class [\w] of [re]: letters, digits and the underscore. *)
Definition is_word (c : ascii) : bool :=
  is_upper c || is_lower c || is_digit c || (code c =? 95)%nat.

Definition lower_char (c : ascii) : ascii :=
  if is_upper c then ascii_of_nat (code c + 32) else c.

(** [s.lower()] *)
Definition lower (s : list ascii) : list ascii := map lower_char s.

(** [s.lstrip()] *)
Fixpoint lstrip (s : list ascii) : list ascii :=
  match s with
  | [] => []
  | c :: t => if is_space c then lstrip t else s
  end.

(** [s.rstrip()] *)
Fixpoint rstrip (s : list ascii) : list ascii :=
  match s with
  | [] => []
  | c :: t =>
      match rstrip t with
      | [] => if is_space c then [] else [c]
      | r => c :: r
      end
  end.

(** [s.strip()] *)
Definition strip (s : list ascii) : list ascii := rstrip (lstrip s).

Fixpoint startswith (p s : list ascii) : bool :=
  match p, s with
  | [], _ => true
  | _ :: _, [] => false
  | a :: p', b :: s' => Ascii.eqb a b && startswith p' s'
  end.

(** [s.replace(old, new)]: the occurrences of [old] are found from the
    left and do not overlap.  [skip] counts the characters of a matched
    occurrence that are still to be passed over. *)
Fixpoint replace_from (old new : list ascii) (skip : nat) (s : list ascii)
  : list ascii :=
  match s with
  | [] => match old with [] => new | _ :: _ => [] end
  | c :: t =>
      match skip with
      | S k => replace_from old new k t
      | O =>
          if startswith old s
          then new ++ match old with
                      | [] => c :: replace_from old new 0 t
                      | _ :: _ => replace_from old new (List.length old - 1) t
                      end
          else c :: replace_from old new 0 t
      end
  end.

Definition replace (old new s : list ascii) : list ascii :=
  replace_from old new 0 s.

(** [re.sub(r'[^\w\s]', '', s)] *)
Definition sub_nonword_nonspace (s : list ascii) : list ascii :=
  filter (fun c => is_word c || is_space c) s.

(** [re.sub(r'\s+', ' ', s)]: every maximal run of white space becomes one
    space.  [in_run] tells that the previous character was white space. *)
Fixpoint collapse_from (in_run : bool) (s : list ascii) : list ascii :=
  match s with
  | [] => []
  | c :: t =>
      if is_space c
      then (if in_run then collapse_from true t
            else " "%char :: collapse_from true t)
      else c :: collapse_from false t
  end.

Definition sub_spaces (s : list ascii) : list ascii := collapse_from false s.

(** [s.split()]: the maximal runs of characters that are not white space.
    [cur] is the token being read, last character first. *)
Fixpoint split_from (cur : list ascii) (s : list ascii) : list (list ascii) :=
  match s with
  | [] => match cur with [] => [] | _ :: _ => [rev cur] end
  | c :: t =>
      if is_space c
      then match cur with
           | [] => split_from [] t
           | _ :: _ => rev cur :: split_from [] t
           end
      else split_from (c :: cur) t
  end.

Definition split (s : list ascii) : list (list ascii) := split_from [] s.


End Py.

Definition chars (s : string) : list ascii := list_ascii_of_string s.
Definition text (l : list ascii) : string := string_of_list_ascii l.

(** ** Cells and the record normaliser *)

(** A cell of the sheet: empty ([NaN] after [read_excel]), [None], or text. *)
Inductive cell : Type :=
| NaN
| PyNone
| Text (s : string).

(** [pd.isna] *)
Definition isna (v : cell) : bool :=
  match v with
  | NaN | PyNone => true
  | Text _ => false
  end.

(** [str(v)] *)
Definition str (v : cell) : string :=
  match v with
  | NaN => "nan"
  | PyNone => "None"
  | Text s => s
  end.

(** The dict [replacements] of [normalize_supplier_name], in insertion
    order. *)
Definition replacements : list (string * string) :=
  [ ("communications", "comm");
    ("telecom", "tel");
    ("limited", "ltd");
    ("incorporated", "inc");
    ("corporation", "corp");
    ("&", "and") ].

Definition apply_replacements (name : list ascii) : list ascii :=
  fold_left (fun n (kv : string * string) =>
               Py.replace (chars (fst kv)) (chars (snd kv)) n)
            replacements name.

Definition normalize_supplier_name (name : cell) : string :=
  let name := Py.strip (Py.lower (chars (str name))) in
  let name := apply_replacements name in
  let name := Py.sub_nonword_nonspace name in
  let name := Py.strip (Py.sub_spaces name) in
  text name.

Definition normalize_destination (name : cell) : string :=
  if isna name then "Unknown"
  else
    let name := Py.strip (chars (str name)) in
    let name := Py.sub_spaces name in
    text name.

Definition extract_country (dest : cell) : string :=
  if isna dest then "Unknown"
  else
    let parts :=
      Py.split (Py.replace (chars "-") (chars " ") (chars (str dest))) in
    match parts with
    | p :: _ => text p
    | [] => "Unknown"
    end.

(** ** Orders, stable sorting and first-occurrence deduplication *)

(** A three-way comparison that behaves as a total preorder. *)
Record Order {A : Type} (cmp : A -> A -> comparison) : Prop := {
  order_opp : forall a b, cmp b a = CompOpp (cmp a b);
  order_eq : forall a b c, cmp a b = Eq -> cmp a c = cmp b c;
  order_lt : forall a b c, cmp a b = Lt -> cmp b c = Lt -> cmp a c = Lt
}.

Definition le_of {A : Type} (cmp : A -> A -> comparison) (a b : A) : bool :=
  match cmp a b with
  | Gt => false
  | _ => true
  end.

(** Compare on the first key, and on the second when the first ties. *)
Definition then_by {A : Type} (k1 k2 : A -> A -> comparison) (a b : A)
  : comparison :=
  match k1 a b with
  | Eq => k2 a b
  | c => c
  end.

(** A key read in the given direction ([ascending=True] or [False]). *)
Definition directed {A : Type} (k : A -> A -> comparison) (ascending : bool)
  (a b : A) : comparison :=
  if ascending then k a b else CompOpp (k a b).

Definition on {A B : Type} (f : A -> B) (cmp : B -> B -> comparison) (a b : A)
  : comparison :=
  cmp (f a) (f b).

(** The element goes in front of the first one that is not smaller, so
    equal keys keep the order they came in. *)
Fixpoint insert {A : Type} (cmp : A -> A -> comparison) (x : A) (l : list A)
  : list A :=
  match l with
  | [] => [x]
  | y :: t => if le_of cmp x y then x :: l else y :: insert cmp x t
  end.

Definition stable_sort {A : Type} (cmp : A -> A -> comparison) (l : list A)
  : list A :=
  fold_right (insert cmp) [] l.

(** ** Column orders *)

Fixpoint tuple_compare (k1 k2 : list string) : comparison :=
  match k1, k2 with
  | [], [] => Eq
  | [], _ :: _ => Lt
  | _ :: _, [] => Gt
  | a :: k1', b :: k2' =>
      match String.compare a b with
      | Eq => tuple_compare k1' k2'
      | c => c
      end
  end.

Definition tuple_eqb (k1 k2 : list string) : bool :=
  match tuple_compare k1 k2 with
  | Eq => true
  | _ => false
  end.

(** ** pandas and builtins *)

(** [x in values] and [Series.isin(values)] on one cell. *)
Definition isin (x : string) (values : list string) : bool :=
  existsb (String.eqb x) values.

(** [Series.unique()]: the distinct values in order of first appearance. *)
Fixpoint unique_from {K : Type} (eqb : K -> K -> bool) (seen : list K)
  (l : list K) : list K :=
  match l with
  | [] => []
  | x :: t =>
      if existsb (eqb x) seen then unique_from eqb seen t
      else x :: unique_from eqb (x :: seen) t
  end.

Definition unique (l : list string) : list string :=
  unique_from String.eqb [] l.

(** [sorted(values)] on strings. *)
Definition sorted (l : list string) : list string :=
  stable_sort String.compare l.

(** [df.sort_values(by, ascending=...)]: the keys are compared in turn and
    ties keep the index order. *)
Fixpoint by_columns {A : Type} (by_ : list ((A -> A -> comparison) * bool))
  (a b : A) : comparison :=
  match by_ with
  | [] => Eq
  | (k, ascending) :: rest =>
      then_by (directed k ascending) (by_columns rest) a b
  end.

Definition sort_values {A : Type} (by_ : list ((A -> A -> comparison) * bool))
  (df : list A) : list A :=
  stable_sort (by_columns by_) df.

(** [df.groupby(by)]: one group per distinct key, the keys in ascending
    order, the rows of a group in index order. *)
Definition group_key {A : Type} (by_ : list (A -> string)) (r : A)
  : list string :=
  map (fun col => col r) by_.

Definition groupby {A : Type} (by_ : list (A -> string)) (df : list A)
  : list (list string * list A) :=
  let keys :=
    stable_sort tuple_compare
      (unique_from tuple_eqb [] (map (group_key by_) df)) in
  map (fun k => (k, filter (fun r => tuple_eqb (group_key by_ r) k) df)) keys.

Definition Qsum (l : list Q) : Q := fold_left Qplus l (0%Q).

(** The aggregations ["mean"], ["min"], ["max"] and ["count"].  No group of
    a [groupby] is empty, so the value given here to an empty column is
    never the value of a view. *)
Definition mean (l : list Q) : Q :=
  Qred (Qsum l / inject_Z (Z.of_nat (List.length l))).

Definition min_Z (l : list Z) : Z :=
  match l with
  | [] => 0%Z
  | x :: t => fold_left Z.min t x
  end.

Definition Qmin2 (a b : Q) : Q := if Qle_bool a b then a else b.
Definition Qmax2 (a b : Q) : Q := if Qle_bool a b then b else a.

Definition min_Q (l : list Q) : Q :=
  match l with
  | [] => 0%Q
  | x :: t => fold_left Qmin2 t x
  end.

Definition max_Q (l : list Q) : Q :=
  match l with
  | [] => 0%Q
  | x :: t => fold_left Qmax2 t x
  end.

Definition count {A : Type} (l : list A) : nat := List.length l.

(** ** Display format [f"${x:.4f}"] *)

Definition digit (n : Z) : ascii := ascii_of_nat (48 + Z.to_nat n).

(** The decimal digits of a natural number, most significant first. *)
Fixpoint digits_from (fuel : nat) (n : Z) (acc : list ascii) : list ascii :=
  match fuel with
  | O => acc
  | S f =>
      let acc' := digit (n mod 10) :: acc in
      if (n <? 10)%Z then acc' else digits_from f (n / 10) acc'
  end.

Definition digits (n : Z) : list ascii :=
  digits_from (S (Z.to_nat (Z.log2 n))) n [].

(** [|x| * 10^4] rounded to the nearest integer, ties to even. *)
Definition round_1e4 (x : Q) : Z :=
  let a := (Z.abs (Qnum x) * 10000)%Z in
  let d := Zpos (Qden x) in
  let q := (a / d)%Z in
  let r := (a mod d)%Z in
  match (2 * r ?= d)%Z with
  | Lt => q
  | Gt => (q + 1)%Z
  | Eq => if Z.even q then q else (q + 1)%Z
  end.

Definition format_rate (x : Q) : string :=
  let m := round_1e4 x in
  let f := (m mod 10000)%Z in
  text ("$"%char ::
        (if (Qnum x <? 0)%Z then ["-"%char] else []) ++
        digits (m / 10000) ++
        "."%char ::
        [digit (f / 1000); digit ((f / 100) mod 10);
         digit ((f / 10) mod 10); digit (f mod 10)]).

(** ** Data model *)

(** One row of the sheet, after [Customer] was renamed to [Supplier]. *)
Module Vendor.
Record t : Type := Build {
  Name : cell;
  Supplier : cell;
  Trunk : string;
  Rate_inter : Q;
  Min_Dur : Z;
  Inc_Dur : Z
}.
End Vendor.

(** One row of the loaded frame [df].  [S] is what a [Supplier] cell holds:
    [cell] as the loader leaves it, [string] in the frames the filter engine
    and the views are stated over. *)
Record NormalizedRecord (S : Type) : Type := Build_Row {
  Name : cell;
  Supplier : S;
  Trunk : string;
  Rate_inter : Q;
  Min_Dur : Z;
  Inc_Dur : Z;
  Destination : string;
  Supplier_Normalized : string;
  Country : string
}.

Arguments Build_Row {S}.
Arguments Name {S}.
Arguments Supplier {S}.
Arguments Trunk {S}.
Arguments Rate_inter {S}.
Arguments Min_Dur {S}.
Arguments Inc_Dur {S}.
Arguments Destination {S}.
Arguments Supplier_Normalized {S}.
Arguments Country {S}.

Definition Row : Type := NormalizedRecord string.
Definition DataFrame : Type := list Row.

(** ** Dataset loader: the three [apply] calls of [load_and_process_data] *)

Definition normalize (raw : Vendor.t) : NormalizedRecord cell :=
  let destination := normalize_destination (Vendor.Name raw) in
  {| Name := Vendor.Name raw;
     Supplier := Vendor.Supplier raw;
     Trunk := Vendor.Trunk raw;
     Rate_inter := Vendor.Rate_inter raw;
     Min_Dur := Vendor.Min_Dur raw;
     Inc_Dur := Vendor.Inc_Dur raw;
     Destination := destination;
     Supplier_Normalized := normalize_supplier_name (Vendor.Supplier raw);
     Country := extract_country (Text destination) |}.

Definition load_and_process_data (sheet : list Vendor.t)
  : list (NormalizedRecord cell) :=
  map normalize sheet.

(** A loaded row whose [Supplier] cell holds text. *)
Definition text_row (r : NormalizedRecord cell) : option Row :=
  match Supplier r with
  | Text s =>
      Some {| Name := Name r; Supplier := s; Trunk := Trunk r;
              Rate_inter := Rate_inter r; Min_Dur := Min_Dur r;
              Inc_Dur := Inc_Dur r; Destination := Destination r;
              Supplier_Normalized := Supplier_Normalized r;
              Country := Country r |}
  | NaN | PyNone => None
  end.

Fixpoint text_frame (df : list (NormalizedRecord cell)) : option DataFrame :=
  match df with
  | [] => Some []
  | r :: t =>
      match text_row r, text_frame t with
      | Some r', Some t' => Some (r' :: t')
      | _, _ => None
      end
  end.

(** ** Filter engine *)

(** [df[df[col].isin(values)]] *)
Definition where_isin (col : Row -> string) (values : list string)
  (df : DataFrame) : DataFrame :=
  filter (fun r => isin (col r) values) df.

(** [if values: df = df[df[col].isin(values)]]: an empty list is falsy. *)
Definition narrow (col : Row -> string) (values : list string)
  (df : DataFrame) : DataFrame :=
  match values with
  | [] => df
  | _ :: _ => where_isin col values df
  end.

Definition filter_dataframe (df_input : DataFrame)
  (countries destinations suppliers trunks : list string) : DataFrame :=
  let filtered := df_input in
  let filtered := narrow Country countries filtered in
  let filtered := narrow Destination destinations filtered in
  let filtered := narrow Supplier suppliers filtered in
  let filtered := narrow Trunk trunks filtered in
  filtered.

(** The option lists of the four [st.multiselect] widgets, before
    [sorted]. *)
Definition available_countries (df : DataFrame) : list string :=
  unique (map Country df).

Definition available_destinations (df : DataFrame)
  (selected_countries : list string) : list string :=
  match selected_countries with
  | [] => unique (map Destination df)
  | _ :: _ =>
      unique (map Destination (where_isin Country selected_countries df))
  end.

(** [temp_df] as it stands in the block of the supplier widget. *)
Definition temp_df_suppliers (df : DataFrame)
  (selected_countries selected_destinations : list string) : DataFrame :=
  let temp_df := df in
  let temp_df := narrow Country selected_countries temp_df in
  let temp_df := narrow Destination selected_destinations temp_df in
  temp_df.

Definition available_suppliers (df : DataFrame)
  (selected_countries selected_destinations : list string) : list string :=
  unique (map Supplier
            (temp_df_suppliers df selected_countries selected_destinations)).

(** [temp_df] as it stands in the block of the trunk widget. *)
Definition temp_df_trunks (df : DataFrame)
  (selected_countries selected_destinations selected_suppliers : list string)
  : DataFrame :=
  narrow Supplier selected_suppliers
    (temp_df_suppliers df selected_countries selected_destinations).

Definition available_trunks (df : DataFrame)
  (selected_countries selected_destinations selected_suppliers : list string)
  : list string :=
  unique (map Trunk
            (temp_df_trunks df selected_countries selected_destinations
               selected_suppliers)).

(** ** Aggregation views *)

(** Rows of the overview table.  [R] is what the [Rate] column holds: the
    mean ([Q]) until the last statement of [generate_main_table], its
    display text after it. *)
Module Main.
Record row (R : Type) : Type := Build {
  Country : string;
  Destination : string;
  Supplier : string;
  Trunk : string;
  Rate : R;
  Min_Dur : Z;
  Inc_Dur : Z
}.
Arguments Build {R}.
Arguments Country {R}.
Arguments Destination {R}.
Arguments Supplier {R}.
Arguments Trunk {R}.
Arguments Rate {R}.
Arguments Min_Dur {R}.
Arguments Inc_Dur {R}.

Definition apply_Rate {R R' : Type} (f : R -> R') (r : row R) : row R' :=
  Build (Country r) (Destination r) (Supplier r) (Trunk r) (f (Rate r))
        (Min_Dur r) (Inc_Dur r).
End Main.

(** [.groupby([...4 keys...]).agg(...).reset_index()] *)
Definition main_table_agg (filtered_df_input : DataFrame) : list (Main.row Q) :=
  map (fun g : list string * list Row =>
         let (k, rows) := g in
         Main.Build (nth 0 k "") (nth 1 k "") (nth 2 k "") (nth 3 k "")
                    (mean (map Rate_inter rows))
                    (min_Z (map Min_Dur rows))
                    (min_Z (map Inc_Dur rows)))
      (groupby [Country; Destination; Supplier; Trunk] filtered_df_input).

(** The frame held by [main_table] before the [Rate] column is formatted. *)
Definition main_table_sorted (filtered_df_input : DataFrame)
  : list (Main.row Q) :=
  sort_values [ (on Main.Country String.compare, true);
                (on Main.Destination String.compare, true);
                (on Main.Rate Qcompare, true) ]
              (main_table_agg filtered_df_input).

Definition generate_main_table (filtered_df_input : DataFrame)
  : list (Main.row string) :=
  let main_table := main_table_sorted filtered_df_input in
  map (Main.apply_Rate format_rate) main_table.

Module Billing.
Record row (R : Type) : Type := Build {
  Supplier : string;
  Trunk : string;
  Min_Duration : Z;
  Increment_Duration : Z;
  Avg_Rate : R
}.
Arguments Build {R}.
Arguments Supplier {R}.
Arguments Trunk {R}.
Arguments Min_Duration {R}.
Arguments Increment_Duration {R}.
Arguments Avg_Rate {R}.

Definition apply_Avg_Rate {R R' : Type} (f : R -> R') (r : row R) : row R' :=
  Build (Supplier r) (Trunk r) (Min_Duration r) (Increment_Duration r)
        (f (Avg_Rate r)).
End Billing.

Definition generate_billing_table (filtered_df_input : DataFrame)
  : list (Billing.row string) :=
  let billing_table :=
    map (fun g : list string * list Row =>
           let (k, rows) := g in
           Billing.Build (nth 0 k "") (nth 1 k "")
                         (min_Z (map Min_Dur rows))
                         (min_Z (map Inc_Dur rows))
                         (mean (map Rate_inter rows)))
        (groupby [Supplier; Trunk] filtered_df_input) in
  map (Billing.apply_Avg_Rate format_rate) billing_table.

(** Rows of the full rate listing: the seven columns selected from the
    filtered frame.  [R] is what [Rate (inter)] holds. *)
Module Listing.
Record row (R : Type) : Type := Build {
  Country : string;
  Destination : string;
  Supplier : string;
  Trunk : string;
  Rate_inter : R;
  Min_Dur : Z;
  Inc_Dur : Z
}.
Arguments Build {R}.
Arguments Country {R}.
Arguments Destination {R}.
Arguments Supplier {R}.
Arguments Trunk {R}.
Arguments Rate_inter {R}.
Arguments Min_Dur {R}.
Arguments Inc_Dur {R}.

Definition apply_Rate_inter {R R' : Type} (f : R -> R') (r : row R)
  : row R' :=
  Build (Country r) (Destination r) (Supplier r) (Trunk r)
        (f (Rate_inter r)) (Min_Dur r) (Inc_Dur r).

(** A listing row with the added column [Rate_Display]. *)
Record displayed : Type := Build_displayed {
  columns : row Q;
  Rate_Display : string
}.
End Listing.

(** [df[["Country", "Destination", "Supplier", "Trunk", "Rate (inter)",
    "Min Dur", "Inc Dur"]].copy()] *)
Definition select_listing (df : DataFrame) : list (Listing.row Q) :=
  map (fun r : Row =>
         Listing.Build (Country r) (Destination r) (Supplier r) (Trunk r)
                       (Rate_inter r) (Min_Dur r) (Inc_Dur r))
      df.

Definition all_rates_sorted (filtered_df_input : DataFrame)
  (sort_ascending : bool) : list (Listing.row Q) :=
  sort_values [ (on Listing.Destination String.compare, true);
                (on Listing.Supplier String.compare, true);
                (on Listing.Rate_inter Qcompare, sort_ascending) ]
              (select_listing filtered_df_input).

Definition generate_all_rates_by_destination (filtered_df_input : DataFrame)
  (sort_ascending : bool) : list Listing.displayed :=
  let all_rates := all_rates_sorted filtered_df_input sort_ascending in
  map (fun r => Listing.Build_displayed r (format_rate (Listing.Rate_inter r)))
      all_rates.

(** The [else] branch of the listing: destination and rate only. *)
Definition all_rates_destination_sorted (filtered_df : DataFrame)
  (sort_ascending : bool) : list (Listing.row Q) :=
  sort_values [ (on Listing.Destination String.compare, true);
                (on Listing.Rate_inter Qcompare, sort_ascending) ]
              (select_listing filtered_df).

Definition all_rates_destination_only (filtered_df : DataFrame)
  (sort_ascending : bool) : list (Listing.row string) :=
  let all_rates := all_rates_destination_sorted filtered_df sort_ascending in
  map (Listing.apply_Rate_inter format_rate) all_rates.

Module Summary.
Record row (R : Type) : Type := Build {
  Supplier : string;
  Routes : nat;
  Avg_Rate : R;
  Min_Rate : R;
  Max_Rate : R
}.
Arguments Build {R}.
Arguments Supplier {R}.
Arguments Routes {R}.
Arguments Avg_Rate {R}.
Arguments Min_Rate {R}.
Arguments Max_Rate {R}.

Definition apply_rates {R R' : Type} (f : R -> R') (r : row R) : row R' :=
  Build (Supplier r) (Routes r) (f (Avg_Rate r)) (f (Min_Rate r))
        (f (Max_Rate r)).
End Summary.

(** [filtered_df.groupby("Supplier").agg(...).reset_index()] *)
Definition supplier_summary_agg (filtered_df : DataFrame)
  : list (Summary.row Q) :=
  map (fun g : list string * list Row =>
         let (k, rows) := g in
         Summary.Build (nth 0 k "")
                       (count (map Destination rows))
                       (mean (map Rate_inter rows))
                       (min_Q (map Rate_inter rows))
                       (max_Q (map Rate_inter rows)))
      (groupby [Supplier] filtered_df).

(** [.sort_values("Avg_Rate")].  With one key pandas sorts with quicksort,
    which fixes no order among equal means; the order given to them here
    is the stable one. *)
Definition supplier_summary_sorted (filtered_df : DataFrame)
  : list (Summary.row Q) :=
  sort_values [ (on Summary.Avg_Rate Qcompare, true) ]
              (supplier_summary_agg filtered_df).

Definition supplier_summary (filtered_df : DataFrame)
  : list (Summary.row string) :=
  map (Summary.apply_rates format_rate) (supplier_summary_sorted filtered_df).

(** ** The script: session state, widgets and one pass from the filters on *)

Record SessionState : Type := Build_SessionState {
  filter_countries : list string;
  filter_destinations : list string;
  filter_suppliers : list string;
  filter_trunks : list string
}.

(** [init_session_state] on a new session. *)
Definition init_session_state : SessionState :=
  {| filter_countries := []; filter_destinations := [];
     filter_suppliers := []; filter_trunks := [] |}.

(** What Streamlit answers during one pass of the script: whether the reset
    button was clicked, the value of a [st.multiselect] given its key, its
    options and its default, and the values of the two [st.selectbox]. *)
Record Streamlit : Type := Build_Streamlit {
  button : bool;
  multiselect : string -> list string -> list string -> list string;
  rate_sort_order : string;
  group_view : string
}.

(** A multiselect returns values among its options. *)
Definition widget_contract (st : Streamlit) : Prop :=
  forall key options default,
    incl (multiselect st key options default) options.

Inductive ListingView : Type :=
| BySupplier (all_rates_display : list (Listing.row string))
             (summary : list (Summary.row string))
| DestinationOnly (all_rates : list (Listing.row string)).

Inductive Page : Type :=
| Rerun
| Warning (message : string)
| Dashboard (main_table : list (Main.row string))
            (billing_table : list (Billing.row string))
            (listing : ListingView).

(** [df.empty] *)
Definition empty {A : Type} (df : list A) : bool :=
  match df with
  | [] => true
  | _ :: _ => false
  end.

(** [all_rates[[..., "Rate_Display", ...]]] with the columns renamed. *)
Definition all_rates_display (all_rates : list Listing.displayed)
  : list (Listing.row string) :=
  map (fun r =>
         Listing.apply_Rate_inter (fun _ => Listing.Rate_Display r)
                                  (Listing.columns r))
      all_rates.

(** The script from [filter_dataframe] to the footer. *)
Definition render (df : DataFrame)
  (selected_countries selected_destinations selected_suppliers
     selected_trunks : list string)
  (sort_order group_view : string) : Page :=
  let filtered_df :=
    filter_dataframe df selected_countries selected_destinations
                     selected_suppliers selected_trunks in
  if empty filtered_df
  then Warning "⚠️ No data available for selected filters."
  else
    let main_table := generate_main_table filtered_df in
    let billing_table := generate_billing_table filtered_df in
    let sort_ascending := String.eqb sort_order "Lowest to Highest" in
    if String.eqb group_view "Supplier"
    then
      let all_rates :=
        generate_all_rates_by_destination filtered_df sort_ascending in
      Dashboard main_table billing_table
                (BySupplier (all_rates_display all_rates)
                            (supplier_summary filtered_df))
    else
      Dashboard main_table billing_table
                (DestinationOnly
                   (all_rates_destination_only filtered_df sort_ascending)).

(** [[v for v in persisted if v in available]] *)
Definition still_available (persisted available : list string) : list string :=
  filter (fun v => isin v available) persisted.

(** One pass of the script over the loaded frame, from the reset button on. *)
Definition script (st : Streamlit) (df : DataFrame) (s : SessionState)
  : SessionState * Page :=
  if button st
  then (init_session_state, Rerun)
  else
    let selected_countries :=
      multiselect st "countries_select"
                  (sorted (available_countries df))
                  (filter_countries s) in
    let available_d := available_destinations df selected_countries in
    let selected_destinations :=
      multiselect st "destinations_select"
                  (sorted available_d)
                  (still_available (filter_destinations s) available_d) in
    let available_s :=
      available_suppliers df selected_countries selected_destinations in
    let selected_suppliers :=
      multiselect st "suppliers_select"
                  (sorted available_s)
                  (still_available (filter_suppliers s) available_s) in
    let available_t :=
      available_trunks df selected_countries selected_destinations
                       selected_suppliers in
    let selected_trunks :=
      multiselect st "trunks_select"
                  (sorted available_t)
                  (still_available (filter_trunks s) available_t) in
    ({| filter_countries := selected_countries;
        filter_destinations := selected_destinations;
        filter_suppliers := selected_suppliers;
        filter_trunks := selected_trunks |},
     render df selected_countries selected_destinations selected_suppliers
            selected_trunks (rate_sort_order st) (group_view st)).


(** Every persisted selection lies in the candidate set that the selections
    upstream of it give. *)
Definition within_candidates (df : DataFrame) (s : SessionState) : Prop :=
  incl (filter_countries s) (available_countries df) /\
  incl (filter_destinations s)
       (available_destinations df (filter_countries s)) /\
  incl (filter_suppliers s)
       (available_suppliers df (filter_countries s) (filter_destinations s)) /\
  incl (filter_trunks s)
       (available_trunks df (filter_countries s) (filter_destinations s)
                         (filter_suppliers s)).

(** ** The rest of the script: header, loading stage and KPI cards *)



(** The part of the session state that the loading stage reads and
    writes: [data_loaded] and [df]. *)
Record LoadState : Type := Build_LoadState {
  data_loaded : bool;
  df : option (list (NormalizedRecord cell))
}.

(** [init_session_state] on a new session, for these two keys. *)
Definition init_load_state : LoadState :=
  {| data_loaded := false; df := None |}.

(** How a pass leaves the loading stage: [st.rerun()] after a load,
    [st.error] and [st.stop()] after a failed one, or on to the KPI cards
    with the frame of the session. *)
Inductive LoadOutcome : Type :=
| LoadRerun
| LoadStop (error : string)
| Proceed (frame : option (list (NormalizedRecord cell))).

(** The loading stage.  [loaded] is what [load_and_process_data()] returns
    in this pass: the processed frame, or [None] when reading or
    processing raised. *)
Definition loading_stage (loaded : option (list (NormalizedRecord cell)))
  (s : LoadState) : LoadState * LoadOutcome :=
  if negb (data_loaded s)
  then
    match loaded with
    | Some frame =>
        ({| data_loaded := true; df := Some frame |}, LoadRerun)
    | None =>
        (s, LoadStop "Failed to load data. Please check the file path.")
    end
  else (s, Proceed (df s)).

(** The states of the loading stage that a session can be in. *)
Inductive load_reachable : LoadState -> Prop :=
| load_reachable_init : load_reachable init_load_state
| load_reachable_pass loaded s :
    load_reachable s -> load_reachable (fst (loading_stage loaded s)).

(** [Series.nunique()] *)
Definition nunique (l : list string) : nat := List.length (unique l).

(** The five KPI cards over the whole frame. *)
Record KpiCards : Type := Build_KpiCards {
  Total_Countries : nat;
  Destinations : nat;
  Suppliers : nat;
  Active_Trunks : nat;
  Avg_Rate : string
}.

(** The mean of an empty column is NaN, which the format shows as
    ["$nan"]. *)
Definition kpi_cards (df : DataFrame) : KpiCards :=
  {| Total_Countries := nunique (map Country df);
     Destinations := nunique (map Destination df);
     Suppliers := nunique (map Supplier df);
     Active_Trunks := nunique (map Trunk df);
     Avg_Rate := match df with
                 | [] => "$nan"
                 | _ :: _ => format_rate (mean (map Rate_inter df))
                 end |}.

(** The four metrics over the filtered frame, which has a row when the
    script gets to them.  [R] is what a rate metric holds: the value, or
    the text given to [st.metric]. *)
Module Metrics.
Record t (R : Type) : Type := Build {
  Lowest_Rate : R;
  Highest_Rate : R;
  Average_Rate : R;
  Total_Routes : nat
}.
Arguments Build {R}.
Arguments Lowest_Rate {R}.
Arguments Highest_Rate {R}.
Arguments Average_Rate {R}.
Arguments Total_Routes {R}.
End Metrics.

Definition filtered_metrics (filtered_df : DataFrame) : Metrics.t Q :=
  let min_rate := min_Q (map Rate_inter filtered_df) in
  let max_rate := max_Q (map Rate_inter filtered_df) in
  let avg_filtered := mean (map Rate_inter filtered_df) in
  let total_routes := List.length filtered_df in
  Metrics.Build min_rate max_rate avg_filtered total_routes.

Definition filtered_kpis (filtered_df : DataFrame) : Metrics.t string :=
  let m := filtered_metrics filtered_df in
  Metrics.Build (format_rate (Metrics.Lowest_Rate m))
                (format_rate (Metrics.Highest_Rate m))
                (format_rate (Metrics.Average_Rate m))
                (Metrics.Total_Routes m).

(** The frame of [generate_billing_table] before [Avg_Rate] is formatted. *)
Definition billing_table_agg (filtered_df_input : DataFrame)
  : list (Billing.row Q) :=
  map (fun g : list string * list Row =>
         let (k, rows) := g in
         Billing.Build (nth 0 k "") (nth 1 k "")
                       (min_Z (map Min_Dur rows))
                       (min_Z (map Inc_Dur rows))
                       (mean (map Rate_inter rows)))
      (groupby [Supplier; Trunk] filtered_df_input).

(** [st.session_state] as [init_session_state] finds it: each of its six
    keys may be missing.  The value of [df] may be [None]. *)
Module Session.
Record t : Type := Build {
  data_loaded : option bool;
  df : option (option (list (NormalizedRecord cell)));
  filter_countries : option (list string);
  filter_destinations : option (list string);
  filter_suppliers : option (list string);
  filter_trunks : option (list string)
}.

(** [if key not in st.session_state: st.session_state.key = default] *)
Definition setdefault {V : Type} (value : option V) (default : V) : option V :=
  match value with
  | Some v => Some v
  | None => Some default
  end.

Definition init_session_state (s : t) : t :=
  {| data_loaded := setdefault (data_loaded s) false;
     df := setdefault (df s) None;
     filter_countries := setdefault (filter_countries s) [];
     filter_destinations := setdefault (filter_destinations s) [];
     filter_suppliers := setdefault (filter_suppliers s) [];
     filter_trunks := setdefault (filter_trunks s) [] |}.

(** A session that has no key yet. *)
Definition fresh : t :=
  {| data_loaded := None; df := None; filter_countries := None;
     filter_destinations := None; filter_suppliers := None;
     filter_trunks := None |}.
End Session.

(** * Vocabulary of the statements *)

(** ** Filter engine *)

(** What one selection list asks of a cell: nothing when it is empty. *)
Definition admits (values : list string) (x : string) : bool :=
  match values with
  | [] => true
  | _ :: _ => isin x values
  end.

(** The four tests of [filter_dataframe] on one row. *)
Definition selected (countries destinations suppliers trunks : list string)
  (r : Row) : bool :=
  admits countries (Country r) && admits destinations (Destination r) &&
  admits suppliers (Supplier r) && admits trunks (Trunk r).

(** ** Sample data *)

(** A row of the sheet with text in Name and Supplier. *)
Definition vendor (name supplier trunk : string) (rate : Q)
  (min_dur inc_dur : Z) : Vendor.t :=
  Vendor.Build (Text name) (Text supplier) trunk rate min_dur inc_dur.

(** A persisted selection made before the country was narrowed to
    France. *)
Definition stale_session : SessionState :=
  {| filter_countries := ["France"];
     filter_destinations := ["UK-London"; "France Lyon"];
     filter_suppliers := ["Zed Telecom"];
     filter_trunks := ["T1"; "T3"] |}.

Definition sample_sheet : list Vendor.t :=
  [ vendor "UK-London" "Zed Telecom" "T1" (1 # 100) 6 6;
    vendor "  France   Paris " "Zed Telecom" "T2" (10 # 1) 1 1;
    vendor "France Lyon" "Zed Telecom" "T3" (9 # 1) 30 6;
    vendor "France Lyon" "Abe & Co" "T3" (9 # 2) 60 60 ].

Definition sample_df : DataFrame :=
  match text_frame (load_and_process_data sample_sheet) with
  | Some df => df
  | None => []
  end.

(** A user who leaves every widget as it is drawn. *)
Definition idle_user : Streamlit :=
  {| button := false;
     multiselect := fun _ _ default => default;
     rate_sort_order := "Lowest to Highest";
     group_view := "Supplier" |}.

(** A user who picks every option of every widget. *)
Definition greedy_user : Streamlit :=
  {| button := false;
     multiselect := fun _ options _ => options;
     rate_sort_order := "Highest to Lowest";
     group_view := "Destination Only" |}.

(** ** Country of a destination *)






(** ** Supplier key: applying the normaliser twice *)


(** White space that [re.sub(r'\s+', ' ', s)] leaves alone: single spaces. *)
Fixpoint single_spaced (after_space : bool) (s : list ascii) : Prop :=
  match s with
  | [] => True
  | c :: t =>
      if Py.is_space c
      then c = " "%char /\ after_space = false /\ single_spaced true t
      else single_spaced false t
  end.






(** ** Groups and aggregates *)


(** ** Overview *)

(** Strictly before, in the order of Python strings. *)
Definition text_lt (a b : string) : Prop := String.compare a b = Lt.


Definition overview_key {R : Type} (row : Main.row R) : list string :=
  [Main.Country row; Main.Destination row; Main.Supplier row; Main.Trunk row].

(** The record belongs to the group that the row of the overview stands
    for. *)
Definition in_group {R : Type} (row : Main.row R) (r : Row) : bool :=
  String.eqb (Country r) (Main.Country row) &&
  String.eqb (Destination r) (Main.Destination row) &&
  String.eqb (Supplier r) (Main.Supplier row) &&
  String.eqb (Trunk r) (Main.Trunk row).


(** ** Supplier summary *)



(** The record is one of the supplier that the row of the summary stands
    for. *)
Definition of_supplier {R : Type} (row : Summary.row R) (r : Row) : bool :=
  String.eqb (Supplier r) (Summary.Supplier row).

(** ** Full rate listing *)





(** ** Billing increments *)

Definition billing_key {R : Type} (row : Billing.row R) : list string :=
  [Billing.Supplier row; Billing.Trunk row].

(** The record is of the supplier and trunk that the row of the billing
    table stands for. *)
Definition in_pair {R : Type} (row : Billing.row R) (r : Row) : bool :=
  String.eqb (Supplier r) (Billing.Supplier row) &&
  String.eqb (Trunk r) (Billing.Trunk row).


(** ** Shape of the derived columns *)



(** ** Averages of the summary *)


(** * Properties *)

(** ** Worked values *)

Example normalize_supplier_name_ex1 :
  normalize_supplier_name (Text "ABC Communications & Co.") = "abc comm and co".
Proof. vm_compute. reflexivity. Qed.

Example normalize_supplier_name_ex2 :
  normalize_supplier_name (Text "  Tele-Com   LIMITED ") = "telecom ltd".
Proof. vm_compute. reflexivity. Qed.

Example extract_country_ex1 : extract_country (Text "UK-London") = "UK".
Proof. vm_compute. reflexivity. Qed.

Example format_rate_ex1 : format_rate (15 # 1000) = "$0.0150".
Proof. vm_compute. reflexivity. Qed.

Example format_rate_ex2 : format_rate (1234567 # 100) = "$12345.6700".
Proof. vm_compute. reflexivity. Qed.

Example format_rate_ex3 : format_rate (- (1 # 3)) = "$-0.3333".
Proof. vm_compute. reflexivity. Qed.

Example sorted_ex : sorted ["b"; "B"; "a"; "ab"] = ["B"; "a"; "ab"; "b"].
Proof. vm_compute. reflexivity. Qed.

(** ** Sorting *)

Section Sorting.
Context {A : Type}.
Variable cmp : A -> A -> comparison.

Lemma insert_perm x l : Permutation (x :: l) (insert cmp x l).
Proof.
  induction l as [|y t IH]; simpl; [reflexivity|].
  destruct (le_of cmp x y); [reflexivity|].
  rewrite perm_swap. now constructor.
Qed.

Lemma stable_sort_perm l : Permutation l (stable_sort cmp l).
Proof.
  induction l as [|x t IH]; simpl; [constructor|].
  rewrite <- insert_perm. now constructor.
Qed.

Lemma stable_sort_In l x : In x (stable_sort cmp l) <-> In x l.
Proof.
  split; apply Permutation_in;
    [symmetry|]; apply stable_sort_perm.
Qed.

Lemma stable_sort_length l : List.length (stable_sort cmp l) = List.length l.
Proof. symmetry. apply Permutation_length, stable_sort_perm. Qed.

Hypothesis cmp_order : Order cmp.

Lemma le_of_total a b : le_of cmp a b = false -> le_of cmp b a = true.
Proof.
  unfold le_of. rewrite (order_opp cmp cmp_order a b).
  destruct (cmp a b); simpl; congruence.
Qed.

Lemma le_of_refl a : le_of cmp a a = true.
Proof.
  unfold le_of. pose proof (order_opp cmp cmp_order a a) as H.
  destruct (cmp a a); simpl in H; congruence.
Qed.

Lemma cmp_eq_sym a b : cmp a b = Eq -> cmp b a = Eq.
Proof. intros H. rewrite (order_opp cmp cmp_order a b), H. reflexivity. Qed.

Lemma le_of_trans a b c :
  le_of cmp a b = true -> le_of cmp b c = true -> le_of cmp a c = true.
Proof.
  unfold le_of. intros Hab Hbc.
  destruct (cmp a b) eqn:Eab; try discriminate.
  - now rewrite (order_eq cmp cmp_order a b c Eab).
  - destruct (cmp b c) eqn:Ebc; try discriminate.
    + apply cmp_eq_sym in Ebc.
      pose proof (order_eq cmp cmp_order c b a Ebc) as H.
      rewrite (order_opp cmp cmp_order a b), Eab in H. simpl in H.
      rewrite (order_opp cmp cmp_order c a), H. reflexivity.
    + now rewrite (order_lt cmp cmp_order a b c Eab Ebc).
Qed.

Lemma insert_sorted x l :
  StronglySorted (fun a b => le_of cmp a b = true) l ->
  StronglySorted (fun a b => le_of cmp a b = true) (insert cmp x l).
Proof.
  induction 1 as [|y t Hs IH Hy]; simpl.
  - repeat constructor.
  - destruct (le_of cmp x y) eqn:E.
    + constructor; [now constructor|].
      constructor; [assumption|].
      rewrite Forall_forall in *. intros z Hz.
      eapply le_of_trans; eauto.
    + constructor; [assumption|].
      rewrite Forall_forall in *. intros z Hz.
      apply (Permutation_in _ (Permutation_sym (insert_perm x t))) in Hz.
      destruct Hz as [<-|Hz]; [now apply le_of_total | now apply Hy].
Qed.

Lemma stable_sort_sorted l :
  StronglySorted (fun a b => le_of cmp a b = true) (stable_sort cmp l).
Proof.
  induction l as [|x t IH]; simpl; [constructor | now apply insert_sorted].
Qed.
End Sorting.

Section OrderCombinators.
Context {A B : Type}.



End OrderCombinators.

(** ** Membership and first-occurrence deduplication *)

Lemma existsb_eqb_In (x : string) (l : list string) :
  existsb (String.eqb x) l = true <-> In x l.
Proof.
  rewrite existsb_exists. split.
  - intros (y & Hy & E). apply String.eqb_eq in E. now subst.
  - intros H. exists x. split; [assumption | apply String.eqb_refl].
Qed.

Lemma isin_In (x : string) (values : list string) :
  isin x values = true <-> In x values.
Proof. apply existsb_eqb_In. Qed.

Section Unique.
Context {K : Type}.
Variable eqb : K -> K -> bool.
Hypothesis eqb_eq : forall a b, eqb a b = true <-> a = b.

Lemma existsb_In (x : K) (l : list K) :
  existsb (eqb x) l = true <-> In x l.
Proof.
  rewrite existsb_exists. split.
  - intros (y & Hy & E). apply eqb_eq in E. now subst.
  - intros H. exists x. split; [assumption | now apply eqb_eq].
Qed.

Lemma unique_from_In (seen l : list K) (x : K) :
  In x (unique_from eqb seen l) <-> In x l /\ ~ In x seen.
Proof.
  revert seen. induction l as [|y t IH]; intros seen; simpl.
  - tauto.
  - destruct (existsb (eqb y) seen) eqn:E.
    + apply existsb_In in E. rewrite IH. split.
      * intros [H1 H2]. tauto.
      * intros [[->|H1] H2]; [contradiction | tauto].
    + assert (Hy : ~ In y seen).
      { intros H. apply existsb_In in H. congruence. }
      simpl. rewrite IH. simpl. split.
      * intros [->|[H1 H2]]; [tauto|]. split; [tauto|].
        intros H. apply H2. now right.
      * intros [[->|H1] H2]; [now left|].
        destruct (eqb y x) eqn:Eyx.
        -- apply eqb_eq in Eyx. now left.
        -- right. split; [assumption|].
           intros [->|H]; [|contradiction].
           assert (eqb x x = true) by now apply eqb_eq. congruence.
Qed.

Lemma unique_from_NoDup (seen l : list K) : NoDup (unique_from eqb seen l).
Proof.
  revert seen. induction l as [|y t IH]; intros seen; simpl.
  - constructor.
  - destruct (existsb (eqb y) seen); [apply IH|].
    constructor; [|apply IH].
    rewrite unique_from_In. simpl. tauto.
Qed.
End Unique.

Lemma unique_In (l : list string) (x : string) : In x (unique l) <-> In x l.
Proof.
  unfold unique. rewrite (unique_from_In String.eqb String.eqb_eq).
  simpl. tauto.
Qed.

Lemma unique_NoDup (l : list string) : NoDup (unique l).
Proof. apply (unique_from_NoDup String.eqb String.eqb_eq). Qed.

(** ** Filter engine *)

Lemma admits_iff (values : list string) (x : string) :
  admits values x = true <-> values = [] \/ In x values.
Proof.
  destruct values as [|v vs]; simpl.
  - split; [now left | reflexivity].
  - change (isin x (v :: vs) = true <-> v :: vs = [] \/ In x (v :: vs)).
    rewrite isin_In. split; [now right|].
    intros [H|H]; [discriminate | assumption].
Qed.

Lemma filter_true {A : Type} (l : list A) : filter (fun _ => true) l = l.
Proof. induction l; simpl; congruence. Qed.

Lemma narrow_filter (col : Row -> string) (values : list string)
  (df : DataFrame) :
  narrow col values df = filter (fun r => admits values (col r)) df.
Proof.
  destruct values; simpl; [now rewrite filter_true | reflexivity].
Qed.

Lemma filter_filter {A : Type} (p q : A -> bool) (l : list A) :
  filter q (filter p l) = filter (fun x => p x && q x) l.
Proof.
  induction l as [|x t IH]; simpl; [reflexivity|].
  destruct (p x); simpl; [destruct (q x)|]; now rewrite IH.
Qed.

(** C2: [filter_dataframe] keeps, in index order, exactly the rows whose
    Country, Destination, Supplier and Trunk are each admitted by the
    matching selection list, where a list admits a value when the list is
    empty or holds the value; with four empty lists it returns the frame
    as it is. *)
Theorem filter_dataframe_subsequence
  (df : DataFrame) (countries destinations suppliers trunks : list string) :
  filter_dataframe df countries destinations suppliers trunks
    = filter (selected countries destinations suppliers trunks) df
  /\ (forall r,
        selected countries destinations suppliers trunks r = true <->
        (countries = [] \/ In (Country r) countries) /\
        (destinations = [] \/ In (Destination r) destinations) /\
        (suppliers = [] \/ In (Supplier r) suppliers) /\
        (trunks = [] \/ In (Trunk r) trunks))
  /\ filter_dataframe df [] [] [] [] = df.
Proof.
  split; [|split].
  - unfold filter_dataframe, selected.
    rewrite !narrow_filter, !filter_filter.
    apply filter_ext. intros r. now rewrite !andb_assoc.
  - intros r. unfold selected.
    rewrite !andb_true_iff, !admits_iff. tauto.
  - reflexivity.
Qed.

Lemma where_isin_In (col : Row -> string) (values : list string)
  (df : DataFrame) (r : Row) :
  In r (where_isin col values df) <-> In r df /\ In (col r) values.
Proof. unfold where_isin. now rewrite filter_In, isin_In. Qed.

Lemma narrow_In (col : Row -> string) (values : list string)
  (df : DataFrame) (r : Row) :
  In r (narrow col values df) <->
  In r df /\ (values = [] \/ In (col r) values).
Proof. now rewrite narrow_filter, filter_In, admits_iff. Qed.

Lemma unique_map_In (col : Row -> string) (df : DataFrame) (x : string) :
  In x (unique (map col df)) <-> exists r, In r df /\ col r = x.
Proof.
  rewrite unique_In, in_map_iff. split; intros (r & H1 & H2); exists r; tauto.
Qed.

(** C1: the candidate lists follow the cascade Country, Destination,
    Supplier, Trunk.  Each list holds no value twice; the countries are
    those of the whole frame; a destination is a candidate exactly when
    some row with an admitted Country has it; a supplier, when some row
    with an admitted Country and an admitted Destination has it; a trunk,
    when some row with an admitted Country, Destination and Supplier has
    it.  No candidate list reads the selection of its own or of a later
    dimension. *)
Theorem candidates_follow_cascade
  (df : DataFrame)
  (selected_countries selected_destinations selected_suppliers : list string) :
  (NoDup (available_countries df) /\
   forall x, In x (available_countries df) <->
             exists r, In r df /\ Country r = x)
  /\
  (NoDup (available_destinations df selected_countries) /\
   forall x, In x (available_destinations df selected_countries) <->
             exists r, In r df /\ Destination r = x /\
                       (selected_countries = [] \/
                        In (Country r) selected_countries))
  /\
  (NoDup (available_suppliers df selected_countries selected_destinations) /\
   forall x, In x (available_suppliers df selected_countries
                                       selected_destinations) <->
             exists r, In r df /\ Supplier r = x /\
                       (selected_countries = [] \/
                        In (Country r) selected_countries) /\
                       (selected_destinations = [] \/
                        In (Destination r) selected_destinations))
  /\
  (NoDup (available_trunks df selected_countries selected_destinations
                           selected_suppliers) /\
   forall x, In x (available_trunks df selected_countries
                                    selected_destinations
                                    selected_suppliers) <->
             exists r, In r df /\ Trunk r = x /\
                       (selected_countries = [] \/
                        In (Country r) selected_countries) /\
                       (selected_destinations = [] \/
                        In (Destination r) selected_destinations) /\
                       (selected_suppliers = [] \/
                        In (Supplier r) selected_suppliers)).
Proof.
  split; [|split; [|split]]; (split; [|intros x]).
  - apply unique_NoDup.
  - apply unique_map_In.
  - unfold available_destinations.
    destruct selected_countries; apply unique_NoDup.
  - unfold available_destinations.
    destruct selected_countries as [|c cs]; rewrite unique_map_In;
      split; intros (r & H); exists r.
    + tauto.
    + tauto.
    + rewrite where_isin_In in H. tauto.
    + rewrite where_isin_In.
      destruct H as (H1 & H2 & [H3|H3]); [discriminate | tauto].
  - apply unique_NoDup.
  - unfold available_suppliers, temp_df_suppliers. rewrite unique_map_In.
    split; intros (r & H); exists r; rewrite !narrow_In in *; tauto.
  - apply unique_NoDup.
  - unfold available_trunks, temp_df_trunks, temp_df_suppliers.
    rewrite unique_map_In.
    split; intros (r & H); exists r; rewrite !narrow_In in *; tauto.
Qed.

(** ** Sample data *)

Example sample_df_countries :
  sorted (available_countries sample_df) = ["France"; "UK"].
Proof. vm_compute. reflexivity. Qed.

Example sample_df_cascade :
  available_destinations sample_df ["France"] = ["France Paris"; "France Lyon"]
  /\ available_suppliers sample_df ["France"] ["France Paris"] = ["Zed Telecom"]
  /\ available_trunks sample_df ["France"] [] ["Abe & Co"] = ["T3"].
Proof. vm_compute. repeat split. Qed.

(** ** Record normaliser *)


(** ** Country of a destination *)







(** ** The empty result *)

(** C10: when the selection leaves no row, the pass ends at the guard: the
    page is the warning and holds none of the views, whatever the sort
    order and the grouping, and the session state of that pass holds the
    selections made, so that the next pass starts from them.  The guard
    is a test of emptiness, not an exception. *)
Theorem empty_result_warns
  (df : DataFrame)
  (selected_countries selected_destinations selected_suppliers
     selected_trunks : list string)
  (H : filter_dataframe df selected_countries selected_destinations
                        selected_suppliers selected_trunks = []) :
  (forall sort_order group_view,
     render df selected_countries selected_destinations selected_suppliers
            selected_trunks sort_order group_view
       = Warning "⚠️ No data available for selected filters.")
  /\ (forall st s,
        button st = false ->
        fst (script st df s)
          = {| filter_countries := selected_countries;
               filter_destinations := selected_destinations;
               filter_suppliers := selected_suppliers;
               filter_trunks := selected_trunks |} ->
        snd (script st df s)
          = Warning "⚠️ No data available for selected filters.").
Proof.
  assert (R : forall sort_order group_view,
             render df selected_countries selected_destinations
                    selected_suppliers selected_trunks sort_order group_view
               = Warning "⚠️ No data available for selected filters.").
  { intros. unfold render. now rewrite H. }
  split; [exact R|].
  intros st s Hb Hs. unfold script in *. rewrite Hb in *.
  cbn [fst snd] in *. injection Hs as -> -> -> ->. apply R.
Qed.

(** The end-to-end scenario: a supplier that the frame does not have. *)
Lemma empty_result_warns_witness :
  filter_dataframe sample_df [] [] ["ABC Comm"] [] = []
  /\ render sample_df [] [] ["ABC Comm"] [] "Lowest to Highest" "Supplier"
       = Warning "⚠️ No data available for selected filters.".
Proof.
  split; [reflexivity|].
  apply (empty_result_warns sample_df [] [] ["ABC Comm"] []). reflexivity.
Defined.

(** With rows left, the page is the dashboard. *)
Lemma render_dashboard (df : DataFrame) (sc sd ss stt : list string)
  (sort_order group_view : string) :
  filter_dataframe df sc sd ss stt <> [] ->
  exists main_table billing_table listing,
    render df sc sd ss stt sort_order group_view
      = Dashboard main_table billing_table listing.
Proof.
  intros H. unfold render.
  destruct (filter_dataframe df sc sd ss stt); [contradiction|].
  cbn [empty]. destruct (String.eqb group_view "Supplier"); eauto.
Qed.

(** ** Selections stay within the candidates *)

Lemma sorted_In (l : list string) (x : string) : In x (sorted l) <-> In x l.
Proof. apply stable_sort_In. Qed.


Lemma within_candidates_init (df : DataFrame) :
  within_candidates df init_session_state.
Proof. repeat split; intros x []. Qed.

Lemma within_candidates_pass (df : DataFrame) (st : Streamlit)
  (s : SessionState) :
  widget_contract st -> within_candidates df (fst (script st df s)).
Proof.
  intros W. unfold script.
  destruct (button st); [apply within_candidates_init|].
  cbn [fst]. unfold within_candidates.
  cbn [filter_countries filter_destinations filter_suppliers filter_trunks].
  repeat split; intros x Hx; apply W in Hx; now rewrite sorted_In in Hx.
Qed.


(** A pass on a stale selection: the destination and the trunk that are no
    longer candidates are not in the new selection. *)
Example stale_values_dropped :
  fst (script idle_user sample_df stale_session)
    = {| filter_countries := ["France"];
         filter_destinations := ["France Lyon"];
         filter_suppliers := ["Zed Telecom"];
         filter_trunks := ["T3"] |}.
Proof. vm_compute. reflexivity. Qed.

Lemma greedy_user_contract : widget_contract greedy_user.
Proof. intros key options default x Hx. exact Hx. Defined.


(** ** Supplier key: applying the normaliser twice *)


Section StringFacts.
Variable P : ascii -> Prop.






End StringFacts.





(** Stripping twice. *)






Lemma single_spaced_weaken s : single_spaced true s -> single_spaced false s.
Proof.
  destruct s as [|c t]; simpl; [trivial|].
  destruct (Py.is_space c); [|trivial]. intros (_ & E & _). discriminate.
Qed.


























Example normalize_supplier_name_twice :
  normalize_supplier_name (Text "Tele-Com") = "telecom"
  /\ normalize_supplier_name (Text "telecom") = "tel"
  /\ normalize_supplier_name (Text "incorporationorated") = "incorporated"
  /\ normalize_supplier_name (Text "incorporated") = "inc".
Proof. vm_compute. repeat split. Qed.





(** ** The orders of the columns *)

Lemma ascii_compare_refl (a : ascii) : Ascii.compare a a = Eq.
Proof. apply N.compare_refl. Qed.

Lemma ascii_compare_lt_trans (a b c : ascii) :
  Ascii.compare a b = Lt -> Ascii.compare b c = Lt -> Ascii.compare a c = Lt.
Proof.
  unfold Ascii.compare. rewrite !N.compare_lt_iff. apply N.lt_trans.
Qed.

Lemma string_compare_refl (s : string) : String.compare s s = Eq.
Proof.
  induction s as [|a s IH]; simpl; [reflexivity|].
  now rewrite ascii_compare_refl.
Qed.

Lemma string_compare_lt_trans (a b c : string) :
  String.compare a b = Lt -> String.compare b c = Lt -> String.compare a c = Lt.
Proof.
  revert b c. induction a as [|x a IH]; intros [|y b] [|z c]; simpl;
    try discriminate; try reflexivity.
  destruct (Ascii.compare x y) eqn:Exy; try discriminate;
    destruct (Ascii.compare y z) eqn:Eyz; try discriminate; intros Hab Hbc.
  - apply Ascii.compare_eq_iff in Exy, Eyz. subst.
    rewrite ascii_compare_refl. eapply IH; eauto.
  - apply Ascii.compare_eq_iff in Exy. subst. now rewrite Eyz.
  - apply Ascii.compare_eq_iff in Eyz. subst. now rewrite Exy.
  - now rewrite (ascii_compare_lt_trans x y z Exy Eyz).
Qed.

Lemma Order_string : Order String.compare.
Proof.
  split.
  - intros a b. apply String.compare_antisym.
  - intros a b c H. apply String.compare_eq_iff in H. now subst.
  - apply string_compare_lt_trans.
Qed.


Lemma tuple_compare_eq (k1 k2 : list string) :
  tuple_compare k1 k2 = Eq <-> k1 = k2.
Proof.
  revert k2. induction k1 as [|a k1 IH]; intros [|b k2]; simpl;
    try (split; [discriminate | discriminate]); [tauto|].
  destruct (String.compare a b) eqn:E.
  - apply String.compare_eq_iff in E. subst. rewrite IH.
    split; [now intros -> | now intros [= ->]].
  - split; [discriminate|]. intros [= -> _].
    rewrite string_compare_refl in E. discriminate.
  - split; [discriminate|]. intros [= -> _].
    rewrite string_compare_refl in E. discriminate.
Qed.

Lemma tuple_eqb_eq (k1 k2 : list string) : tuple_eqb k1 k2 = true <-> k1 = k2.
Proof.
  unfold tuple_eqb. rewrite <- tuple_compare_eq.
  destruct (tuple_compare k1 k2); split; congruence.
Qed.



Lemma sort_values_perm {A : Type}
  (by_ : list ((A -> A -> comparison) * bool)) (df : list A) :
  Permutation df (sort_values by_ df).
Proof. apply stable_sort_perm. Qed.


(** ** Groups and aggregates *)

Lemma groupby_keys {A : Type} (by_ : list (A -> string)) (df : list A) :
  map fst (groupby by_ df)
    = stable_sort tuple_compare
        (unique_from tuple_eqb [] (map (group_key by_) df)).
Proof. unfold groupby. rewrite map_map. simpl. apply map_id. Qed.

Lemma groupby_keys_NoDup {A : Type} (by_ : list (A -> string)) (df : list A) :
  NoDup (map fst (groupby by_ df)).
Proof.
  rewrite groupby_keys.
  eapply Permutation_NoDup; [apply stable_sort_perm|].
  apply (unique_from_NoDup tuple_eqb tuple_eqb_eq).
Qed.


Lemma groupby_In {A : Type} (by_ : list (A -> string)) (df : list A)
  (k : list string) (rows : list A) :
  In (k, rows) (groupby by_ df) <->
  (exists r, In r df /\ group_key by_ r = k) /\
  rows = filter (fun r => tuple_eqb (group_key by_ r) k) df.
Proof.
  unfold groupby. rewrite in_map_iff. split.
  - intros (k' & [= -> <-] & Hk). split; [|reflexivity].
    apply stable_sort_In in Hk.
    apply (unique_from_In tuple_eqb tuple_eqb_eq) in Hk.
    destruct Hk as [Hk _]. apply in_map_iff in Hk.
    destruct Hk as (r & <- & Hr). now exists r.
  - intros ((r & Hr & <-) & ->). exists (group_key by_ r).
    split; [reflexivity|].
    apply stable_sort_In. apply (unique_from_In tuple_eqb tuple_eqb_eq).
    split; [|intros []]. apply in_map. exact Hr.
Qed.





(** ** Overview *)

Lemma in_group_key {R : Type} (row : Main.row R) (r : Row) :
  in_group row r
    = tuple_eqb (group_key [Country; Destination; Supplier; Trunk] r)
                (overview_key row).
Proof.
  apply eq_true_iff_eq. rewrite tuple_eqb_eq. unfold in_group, overview_key.
  rewrite !andb_true_iff, !String.eqb_eq. simpl.
  split; [intros [[[-> ->] ->] ->]; reflexivity | intros [= -> -> -> ->]; auto].
Qed.

Lemma main_table_agg_In (t : DataFrame) (row : Main.row Q) :
  In row (main_table_agg t) <->
  exists r0, In r0 t /\
    row = Main.Build (Country r0) (Destination r0) (Supplier r0) (Trunk r0)
            (mean (map Rate_inter (filter (in_group row) t)))
            (min_Z (map Min_Dur (filter (in_group row) t)))
            (min_Z (map Inc_Dur (filter (in_group row) t))).
Proof.
  unfold main_table_agg. rewrite in_map_iff. split.
  - intros ([k rows] & <- & Hg). apply groupby_In in Hg.
    destruct Hg as ((r0 & Hr0 & <-) & ->). exists r0. split; [assumption|].
    cbn [group_key map nth]. f_equal; do 2 f_equal; apply filter_ext;
      intros r; now rewrite in_group_key.
  - intros (r0 & Hr0 & E).
    exists (group_key [Country; Destination; Supplier; Trunk] r0,
            filter (fun r => tuple_eqb
                      (group_key [Country; Destination; Supplier; Trunk] r)
                      (group_key [Country; Destination; Supplier; Trunk] r0)) t).
    split.
    + rewrite E at 1. cbn [group_key map nth].
      f_equal; do 2 f_equal; apply filter_ext; intros r;
        rewrite in_group_key, E; reflexivity.
    + apply groupby_In. split; [now exists r0 | reflexivity].
Qed.





(** ** Supplier summary *)







Lemma of_supplier_key {R : Type} (row : Summary.row R) (r : Row) :
  of_supplier row r
    = tuple_eqb (group_key [Supplier] r) [Summary.Supplier row].
Proof.
  apply eq_true_iff_eq. rewrite tuple_eqb_eq. unfold of_supplier.
  rewrite String.eqb_eq. simpl.
  split; [now intros -> | now intros [= ->]].
Qed.

Lemma supplier_summary_agg_In (t : DataFrame) (row : Summary.row Q) :
  In row (supplier_summary_agg t) <->
  exists r0, In r0 t /\
    row = Summary.Build (Supplier r0)
            (count (map Destination (filter (of_supplier row) t)))
            (mean (map Rate_inter (filter (of_supplier row) t)))
            (min_Q (map Rate_inter (filter (of_supplier row) t)))
            (max_Q (map Rate_inter (filter (of_supplier row) t))).
Proof.
  unfold supplier_summary_agg. rewrite in_map_iff. split.
  - intros ([k rows] & <- & Hg). apply groupby_In in Hg.
    destruct Hg as ((r0 & Hr0 & <-) & ->). exists r0. split; [assumption|].
    cbn [group_key map nth]. f_equal; do 2 f_equal; apply filter_ext;
      intros r; now rewrite of_supplier_key.
  - intros (r0 & Hr0 & E).
    exists (group_key [Supplier] r0,
            filter (fun r => tuple_eqb (group_key [Supplier] r)
                                       (group_key [Supplier] r0)) t).
    split.
    + rewrite E at 1. cbn [group_key map nth].
      f_equal; do 2 f_equal; apply filter_ext; intros r;
        rewrite of_supplier_key, E; reflexivity.
    + apply groupby_In. split; [now exists r0 | reflexivity].
Qed.





(** ** Full rate listing *)










(** * Further properties of the script *)

(** ** Billing increments *)

Lemma strictly_sorted {A : Type} (cmp : A -> A -> comparison) (l : list A) :
  (forall a b, cmp a b = Eq -> a = b) ->
  NoDup l ->
  StronglySorted (fun a b => le_of cmp a b = true) l ->
  StronglySorted (fun a b => cmp a b = Lt) l.
Proof.
  intros Heq Hnd Hs. induction Hs as [|x t Hs IH Hx]; constructor.
  - apply IH. now inversion Hnd.
  - inversion Hnd as [|x' t' Hnotin Hnd']; subst.
    rewrite Forall_forall in *. intros y Hy.
    specialize (Hx y Hy). unfold le_of in Hx.
    destruct (cmp x y) eqn:E; [|reflexivity|discriminate].
    apply Heq in E. subst. contradiction.
Qed.

Lemma in_pair_key {R : Type} (row : Billing.row R) (r : Row) :
  in_pair row r = tuple_eqb (group_key [Supplier; Trunk] r) (billing_key row).
Proof.
  apply eq_true_iff_eq. rewrite tuple_eqb_eq. unfold in_pair, billing_key.
  rewrite !andb_true_iff, !String.eqb_eq. simpl.
  split; [intros [-> ->]; reflexivity | intros [= -> ->]; auto].
Qed.

Lemma billing_table_agg_In (t : DataFrame) (row : Billing.row Q) :
  In row (billing_table_agg t) <->
  exists r0, In r0 t /\
    row = Billing.Build (Supplier r0) (Trunk r0)
            (min_Z (map Min_Dur (filter (in_pair row) t)))
            (min_Z (map Inc_Dur (filter (in_pair row) t)))
            (mean (map Rate_inter (filter (in_pair row) t))).
Proof.
  unfold billing_table_agg. rewrite in_map_iff. split.
  - intros ([k rows] & <- & Hg). apply groupby_In in Hg.
    destruct Hg as ((r0 & Hr0 & <-) & ->). exists r0. split; [assumption|].
    cbn [group_key map nth]. f_equal; do 2 f_equal; apply filter_ext;
      intros r; now rewrite in_pair_key.
  - intros (r0 & Hr0 & E).
    exists (group_key [Supplier; Trunk] r0,
            filter (fun r => tuple_eqb (group_key [Supplier; Trunk] r)
                                       (group_key [Supplier; Trunk] r0)) t).
    split.
    + rewrite E at 1. cbn [group_key map nth].
      f_equal; do 2 f_equal; apply filter_ext; intros r;
        rewrite in_pair_key, E; reflexivity.
    + apply groupby_In. split; [now exists r0 | reflexivity].
Qed.



(** ** Shape of the derived columns *)




















(** ** Selections made through the widgets always match some row *)

Lemma filter_dataframe_In (df : DataFrame) (c d s t : list string) (r : Row) :
  In r (filter_dataframe df c d s t) <->
  In r df /\
  (c = [] \/ In (Country r) c) /\ (d = [] \/ In (Destination r) d) /\
  (s = [] \/ In (Supplier r) s) /\ (t = [] \/ In (Trunk r) t).
Proof. unfold filter_dataframe. rewrite !narrow_In. tauto. Qed.

Lemma within_candidates_rows (df : DataFrame) (s : SessionState) :
  within_candidates df s -> df <> [] ->
  filter_dataframe df (filter_countries s) (filter_destinations s)
                   (filter_suppliers s) (filter_trunks s) <> [].
Proof.
  destruct s as [c d sp t]. unfold within_candidates.
  cbn [filter_countries filter_destinations filter_suppliers filter_trunks].
  intros (Hc & Hd & Hs & Ht) Hne.
  assert (Hex : exists r, In r (filter_dataframe df c d sp t)).
  { destruct t as [|x t'].
    - destruct sp as [|x sp'].
      + destruct d as [|x d'].
        * destruct c as [|x c'].
          -- destruct df as [|r df']; [contradiction|].
             exists r. apply filter_dataframe_In. simpl. tauto.
          -- assert (Hx : In x (available_countries df))
               by (apply Hc; now left).
             apply unique_map_In in Hx. destruct Hx as (r & Hr & E).
             exists r. apply filter_dataframe_In. rewrite E. simpl. tauto.
        * assert (Hx : In x (available_destinations df c))
            by (apply Hd; now left).
          unfold available_destinations in Hx.
          destruct c as [|y c']; apply unique_map_In in Hx;
            destruct Hx as (r & Hr & E); exists r;
            apply filter_dataframe_In; rewrite E.
          -- simpl. tauto.
          -- apply where_isin_In in Hr. simpl. tauto.
      + assert (Hx : In x (available_suppliers df c d)) by (apply Hs; now left).
        apply unique_map_In in Hx. destruct Hx as (r & Hr & E).
        unfold temp_df_suppliers in Hr. rewrite !narrow_In in Hr.
        exists r. apply filter_dataframe_In. rewrite E. simpl. tauto.
    - assert (Hx : In x (available_trunks df c d sp)) by (apply Ht; now left).
      apply unique_map_In in Hx. destruct Hx as (r & Hr & E).
      unfold temp_df_trunks, temp_df_suppliers in Hr. rewrite !narrow_In in Hr.
      exists r. apply filter_dataframe_In. rewrite E. simpl. tauto. }
  destruct Hex as (r & Hr). intros E. rewrite E in Hr. contradiction.
Qed.

(** X5: over a frame that is not empty, a pass in which every multiselect
    returns values among its options never ends at the warning: the
    selections it makes match at least one row, whatever the session held
    before, and the page is the dashboard. *)
Theorem pass_shows_dashboard
  (st : Streamlit) (df : DataFrame) (s : SessionState)
  (Hw : widget_contract st) (Hb : button st = false) (Hne : df <> []) :
  let s' := fst (script st df s) in
  filter_dataframe df (filter_countries s') (filter_destinations s')
                   (filter_suppliers s') (filter_trunks s') <> []
  /\ exists main_table billing_table listing,
       snd (script st df s) = Dashboard main_table billing_table listing.
Proof.
  intros s'.
  assert (Hrows : filter_dataframe df (filter_countries s')
                    (filter_destinations s') (filter_suppliers s')
                    (filter_trunks s') <> []).
  { apply within_candidates_rows; [|exact Hne].
    now apply within_candidates_pass. }
  split; [exact Hrows|].
  assert (E : snd (script st df s)
              = render df (filter_countries s') (filter_destinations s')
                       (filter_suppliers s') (filter_trunks s')
                       (rate_sort_order st) (group_view st)).
  { unfold s', script. rewrite Hb. reflexivity. }
  rewrite E. now apply render_dashboard.
Qed.

Lemma pass_shows_dashboard_witness :
  exists main_table billing_table listing,
    snd (script greedy_user sample_df stale_session)
      = Dashboard main_table billing_table listing.
Proof.
  apply (pass_shows_dashboard greedy_user sample_df stale_session).
  - exact greedy_user_contract.
  - reflexivity.
  - discriminate.
Defined.

(** ** Lowest, average and highest rate *)










(** ** Every record is counted once *)

Lemma list_sum_perm (l l' : list nat) :
  Permutation l l' -> list_sum l = list_sum l'.
Proof. induction 1; simpl; lia. Qed.

Lemma list_sum_map_add {K : Type} (f g : K -> nat) (ks : list K) :
  list_sum (map (fun k => f k + g k) ks)
    = list_sum (map f ks) + list_sum (map g ks).
Proof. induction ks as [|k ks IH]; simpl; lia. Qed.

Lemma indicator_sum (x : list string) (ks : list (list string)) :
  NoDup ks ->
  list_sum (map (fun k => if tuple_eqb x k then 1 else 0) ks)
    = if existsb (tuple_eqb x) ks then 1 else 0.
Proof.
  induction 1 as [|k ks Hk Hnd IH]; [reflexivity|].
  change (list_sum (map (fun k => if tuple_eqb x k then 1 else 0) (k :: ks)))
    with ((if tuple_eqb x k then 1 else 0)
          + list_sum (map (fun k => if tuple_eqb x k then 1 else 0) ks)).
  rewrite IH. cbn [existsb].
  destruct (tuple_eqb x k) eqn:E; [|reflexivity].
  apply tuple_eqb_eq in E. subst k.
  destruct (existsb (tuple_eqb x) ks) eqn:Ex; [|reflexivity].
  apply (existsb_In tuple_eqb tuple_eqb_eq) in Ex. contradiction.
Qed.

Lemma group_sizes {A : Type} (key : A -> list string)
  (ks : list (list string)) (df : list A) :
  NoDup ks ->
  (forall r, In r df -> In (key r) ks) ->
  list_sum (map (fun k => List.length
                            (filter (fun r => tuple_eqb (key r) k) df)) ks)
    = List.length df.
Proof.
  intros Hnd. induction df as [|r t IH]; intros Hin.
  - clear Hnd Hin. induction ks as [|k ks IHks]; [reflexivity|exact IHks].
  - assert (E1 : map (fun k => List.length
                     (filter (fun a => tuple_eqb (key a) k) (r :: t))) ks
                 = map (fun k =>
                          (if tuple_eqb (key r) k then 1 else 0)
                          + List.length
                              (filter (fun a => tuple_eqb (key a) k) t)) ks).
    { apply map_ext. intros k. simpl.
      destruct (tuple_eqb (key r) k); reflexivity. }
    rewrite E1, list_sum_map_add, (indicator_sum (key r) ks Hnd).
    rewrite IH by (intros; apply Hin; now right).
    assert (E : existsb (tuple_eqb (key r)) ks = true).
    { apply (existsb_In tuple_eqb tuple_eqb_eq). apply Hin. now left. }
    rewrite E. reflexivity.
Qed.

Lemma groupby_sizes {A : Type} (by_ : list (A -> string)) (df : list A) :
  list_sum (map (fun g => List.length (snd g)) (groupby by_ df))
    = List.length df.
Proof.
  unfold groupby. rewrite map_map. cbn [snd].
  apply group_sizes.
  - pose proof (groupby_keys_NoDup by_ df) as H.
    now rewrite groupby_keys in H.
  - intros r Hr. apply stable_sort_In.
    apply (unique_from_In tuple_eqb tuple_eqb_eq).
    split; [now apply in_map | intros []].
Qed.

(** X8: the Routes of the supplier summary add up to the number of rows of
    the filtered frame, the Total Routes metric: every record is counted
    for exactly one supplier. *)
Theorem supplier_summary_routes_total (filtered_df : DataFrame) :
  list_sum (map Summary.Routes (supplier_summary filtered_df))
    = List.length filtered_df
  /\ list_sum (map Summary.Routes (supplier_summary filtered_df))
     = Metrics.Total_Routes (filtered_kpis filtered_df).
Proof.
  assert (E : list_sum (map Summary.Routes (supplier_summary filtered_df))
              = List.length filtered_df).
  { unfold supplier_summary. rewrite map_map.
    cbn [Summary.apply_rates Summary.Routes].
    rewrite (list_sum_perm _ (map Summary.Routes
                                (supplier_summary_agg filtered_df))).
    - unfold supplier_summary_agg. rewrite map_map.
      etransitivity; [|exact (groupby_sizes [Supplier] filtered_df)].
      f_equal. apply map_ext. intros [k rows]. cbn.
      unfold count. apply length_map.
    - apply Permutation_map, Permutation_sym, sort_values_perm. }
  split; [exact E | now rewrite E].
Qed.

(** ** The views show the same suppliers *)

Lemma supplier_of_frame (t : DataFrame) (s : string) :
  In s (map Supplier t) <-> exists r, In r t /\ Supplier r = s.
Proof.
  rewrite in_map_iff. split; intros (r & H1 & H2); exists r; tauto.
Qed.

(** X9: the overview, the billing table, the supplier summary and both
    modes of the listing show exactly the suppliers that occur in the
    filtered frame. *)
Theorem views_show_suppliers_of_frame (t : DataFrame)
  (sort_ascending : bool) (s : string) :
  (In s (map Main.Supplier (generate_main_table t)) <-> In s (map Supplier t))
  /\ (In s (map Billing.Supplier (generate_billing_table t))
      <-> In s (map Supplier t))
  /\ (In s (map Summary.Supplier (supplier_summary t))
      <-> In s (map Supplier t))
  /\ (In s (map Listing.Supplier
              (all_rates_display
                 (generate_all_rates_by_destination t sort_ascending)))
      <-> In s (map Supplier t))
  /\ (In s (map Listing.Supplier
              (all_rates_destination_only t sort_ascending))
      <-> In s (map Supplier t)).
Proof.
  rewrite supplier_of_frame. repeat split.
  - unfold generate_main_table. rewrite map_map. cbn. intros H.
    apply in_map_iff in H. destruct H as (row & <- & Hrow).
    apply stable_sort_In, main_table_agg_In in Hrow.
    destruct Hrow as (r0 & Hr0 & ->). now exists r0.
  - intros (r & Hr & <-). unfold generate_main_table. rewrite map_map. cbn.
    set (g := filter (in_group (Main.Build (Country r) (Destination r)
                                  (Supplier r) (Trunk r) 0%Q 0%Z 0%Z)) t).
    apply in_map_iff.
    exists (Main.Build (Country r) (Destination r) (Supplier r) (Trunk r)
              (mean (map Rate_inter g)) (min_Z (map Min_Dur g))
              (min_Z (map Inc_Dur g))).
    split; [reflexivity|].
    apply stable_sort_In, main_table_agg_In. now exists r.
  - unfold generate_billing_table. fold (billing_table_agg t).
    rewrite map_map. cbn. intros H.
    apply in_map_iff in H. destruct H as (row & <- & Hrow).
    apply billing_table_agg_In in Hrow.
    destruct Hrow as (r0 & Hr0 & ->). now exists r0.
  - intros (r & Hr & <-). unfold generate_billing_table.
    fold (billing_table_agg t). rewrite map_map. cbn.
    set (g := filter (in_pair (Billing.Build (Supplier r) (Trunk r)
                                 0%Z 0%Z 0%Q)) t).
    apply in_map_iff.
    exists (Billing.Build (Supplier r) (Trunk r) (min_Z (map Min_Dur g))
              (min_Z (map Inc_Dur g)) (mean (map Rate_inter g))).
    split; [reflexivity|].
    apply billing_table_agg_In. now exists r.
  - unfold supplier_summary. rewrite map_map. cbn. intros H.
    apply in_map_iff in H. destruct H as (row & <- & Hrow).
    apply stable_sort_In, supplier_summary_agg_In in Hrow.
    destruct Hrow as (r0 & Hr0 & ->). now exists r0.
  - intros (r & Hr & <-). unfold supplier_summary. rewrite map_map. cbn.
    set (g := filter (of_supplier
                        (Summary.Build (Supplier r) 0 0%Q 0%Q 0%Q)) t).
    apply in_map_iff.
    exists (Summary.Build (Supplier r) (count (map Destination g))
              (mean (map Rate_inter g)) (min_Q (map Rate_inter g))
              (max_Q (map Rate_inter g))).
    split; [reflexivity|].
    apply stable_sort_In, supplier_summary_agg_In. now exists r.
  - unfold all_rates_display, generate_all_rates_by_destination.
    rewrite !map_map. cbn. intros H.
    apply in_map_iff in H. destruct H as (row & <- & Hrow).
    apply stable_sort_In in Hrow. unfold select_listing in Hrow.
    apply in_map_iff in Hrow. destruct Hrow as (r & <- & Hr). now exists r.
  - intros (r & Hr & <-).
    unfold all_rates_display, generate_all_rates_by_destination.
    rewrite !map_map. cbn. apply in_map_iff.
    exists (Listing.Build (Country r) (Destination r) (Supplier r) (Trunk r)
              (Rate_inter r) (Min_Dur r) (Inc_Dur r)).
    split; [reflexivity|]. apply stable_sort_In.
    unfold select_listing. apply in_map_iff. now exists r.
  - unfold all_rates_destination_only. rewrite map_map. cbn. intros H.
    apply in_map_iff in H. destruct H as (row & <- & Hrow).
    apply stable_sort_In in Hrow. unfold select_listing in Hrow.
    apply in_map_iff in Hrow. destruct Hrow as (r & <- & Hr). now exists r.
  - intros (r & Hr & <-). unfold all_rates_destination_only.
    rewrite map_map. cbn. apply in_map_iff.
    exists (Listing.Build (Country r) (Destination r) (Supplier r) (Trunk r)
              (Rate_inter r) (Min_Dur r) (Inc_Dur r)).
    split; [reflexivity|]. apply stable_sort_In.
    unfold select_listing. apply in_map_iff. now exists r.
Qed.

(** ** The cascade and the filter agree *)

Lemma filter_idempotent {A : Type} (p : A -> bool) (l : list A) :
  filter p (filter p l) = filter p l.
Proof.
  rewrite filter_filter. apply filter_ext. intros a. apply andb_diag.
Qed.

Lemma filter_dataframe_filter (df : DataFrame) (c d s t : list string) :
  filter_dataframe df c d s t = filter (selected c d s t) df.
Proof.
  unfold filter_dataframe, selected.
  rewrite !narrow_filter, !filter_filter.
  apply filter_ext. intros r. now rewrite !andb_assoc.
Qed.

(** X10: the frame from which the supplier widget, and then the trunk
    widget, read their options is the frame that [filter_dataframe] returns
    for the selections made so far; applying the remaining selections to
    it gives the filtered frame of the pass.  Filtering a filtered frame
    again with the same selections changes nothing, and a filtered frame
    never has more rows than the frame. *)
Theorem filter_dataframe_composes
  (df : DataFrame) (countries destinations suppliers trunks : list string) :
  temp_df_suppliers df countries destinations
    = filter_dataframe df countries destinations [] []
  /\ temp_df_trunks df countries destinations suppliers
     = filter_dataframe df countries destinations suppliers []
  /\ filter_dataframe df countries destinations suppliers trunks
     = filter_dataframe
         (temp_df_trunks df countries destinations suppliers) [] [] [] trunks
  /\ filter_dataframe
       (filter_dataframe df countries destinations suppliers trunks)
       countries destinations suppliers trunks
     = filter_dataframe df countries destinations suppliers trunks
  /\ List.length (filter_dataframe df countries destinations suppliers trunks)
     <= List.length df.
Proof.
  split; [reflexivity|]. split; [reflexivity|]. split; [reflexivity|].
  split.
  - rewrite !filter_dataframe_filter. apply filter_idempotent.
  - rewrite filter_dataframe_filter. apply filter_length_le.
Qed.

(** ** The options of the widgets *)

Lemma available_destinations_NoDup (df : DataFrame) (sc : list string) :
  NoDup (available_destinations df sc).
Proof. unfold available_destinations. destruct sc; apply unique_NoDup. Qed.

Lemma sorted_strictly (l : list string) :
  NoDup l -> StronglySorted text_lt (sorted l).
Proof.
  intros H. unfold sorted, text_lt. apply strictly_sorted.
  - apply String.compare_eq_iff.
  - eapply Permutation_NoDup; [apply stable_sort_perm | exact H].
  - apply stable_sort_sorted, Order_string.
Qed.

(** X11: the option list handed to each of the four multiselect widgets is
    in strictly ascending order, so it shows no value twice, and it holds
    exactly the candidates of its dimension. *)
Theorem widget_options_ascending
  (df : DataFrame)
  (selected_countries selected_destinations selected_suppliers : list string) :
  (StronglySorted text_lt (sorted (available_countries df)) /\
   forall x, In x (sorted (available_countries df)) <->
             In x (available_countries df))
  /\ (StronglySorted text_lt
        (sorted (available_destinations df selected_countries)) /\
      forall x, In x (sorted (available_destinations df selected_countries))
                <-> In x (available_destinations df selected_countries))
  /\ (StronglySorted text_lt
        (sorted (available_suppliers df selected_countries
                                     selected_destinations)) /\
      forall x, In x (sorted (available_suppliers df selected_countries
                                                  selected_destinations))
                <-> In x (available_suppliers df selected_countries
                                              selected_destinations))
  /\ (StronglySorted text_lt
        (sorted (available_trunks df selected_countries selected_destinations
                                  selected_suppliers)) /\
      forall x, In x (sorted (available_trunks df selected_countries
                                selected_destinations selected_suppliers))
                <-> In x (available_trunks df selected_countries
                            selected_destinations selected_suppliers)).
Proof.
  repeat split; try apply sorted_In; apply sorted_strictly;
    try apply unique_NoDup; apply available_destinations_NoDup.
Qed.

(** ** KPI cards *)

Lemma nunique_le (l : list string) : nunique l <= List.length l.
Proof.
  unfold nunique. apply NoDup_incl_length; [apply unique_NoDup|].
  intros x Hx. now rewrite unique_In in Hx.
Qed.

Lemma sorted_length (l : list string) :
  List.length (sorted l) = List.length l.
Proof. apply stable_sort_length. Qed.

(** X12: each of the four counting cards shows the number of options that
    the filter of its column offers while nothing is selected, and none of
    them exceeds the number of rows of the frame. *)
Theorem kpi_cards_count_options (df : DataFrame) :
  let cards := kpi_cards df in
  Total_Countries cards = List.length (sorted (available_countries df))
  /\ Destinations cards
     = List.length (sorted (available_destinations df []))
  /\ Suppliers cards
     = List.length (sorted (available_suppliers df [] []))
  /\ Active_Trunks cards
     = List.length (sorted (available_trunks df [] [] []))
  /\ Total_Countries cards <= List.length df
  /\ Destinations cards <= List.length df
  /\ Suppliers cards <= List.length df
  /\ Active_Trunks cards <= List.length df.
Proof.
  intros cards. unfold cards, kpi_cards.
  cbn [Total_Countries Destinations Suppliers Active_Trunks].
  rewrite !sorted_length.
  assert (L : forall col : Row -> string,
             nunique (map col df) <= List.length df).
  { intros col. etransitivity; [apply nunique_le|]. now rewrite length_map. }
  repeat split; try reflexivity; apply L.
Qed.

Lemma text_row_columns (n : NormalizedRecord cell) (r : Row) :
  text_row n = Some r ->
  Country r = Country n /\ Destination r = Destination n.
Proof.
  unfold text_row. destruct (Supplier n); try discriminate.
  intros [= <-]. split; reflexivity.
Qed.

Lemma text_frame_In (l : list (NormalizedRecord cell)) (df : DataFrame) :
  text_frame l = Some df ->
  forall r, In r df -> exists n, In n l /\ text_row n = Some r.
Proof.
  revert df. induction l as [|n l IH]; intros df; simpl.
  - intros [= <-] r [].
  - destruct (text_row n) as [r0|] eqn:E; [|discriminate].
    destruct (text_frame l) as [t|]; [|discriminate].
    intros [= <-] r [<-|Hr].
    + exists n. split; [now left | assumption].
    + destruct (IH t eq_refl r Hr) as (m & Hm & Em).
      exists m. split; [now right | assumption].
Qed.

Lemma loaded_country (sheet : list Vendor.t) (df : DataFrame) :
  text_frame (load_and_process_data sheet) = Some df ->
  forall r, In r df -> Country r = extract_country (Text (Destination r)).
Proof.
  intros H r Hr. destruct (text_frame_In _ _ H r Hr) as (n & Hn & En).
  apply text_row_columns in En. destruct En as [-> ->].
  unfold load_and_process_data in Hn. apply in_map_iff in Hn.
  destruct Hn as (raw & <- & _). reflexivity.
Qed.

(** X13: in a frame that comes from the loader a destination has one
    country, so the Total Countries card never exceeds the Destinations
    card. *)
Theorem loaded_countries_le_destinations
  (sheet : list Vendor.t) (df : DataFrame)
  (H : text_frame (load_and_process_data sheet) = Some df) :
  Total_Countries (kpi_cards df) <= Destinations (kpi_cards df).
Proof.
  cbn. unfold nunique.
  rewrite <- (length_map (fun d => extract_country (Text d))
                         (unique (map Destination df))).
  apply NoDup_incl_length; [apply unique_NoDup|].
  intros c Hc. apply unique_map_In in Hc. destruct Hc as (r & Hr & <-).
  rewrite (loaded_country sheet df H r Hr).
  apply (in_map (fun d => extract_country (Text d))).
  apply unique_map_In. now exists r.
Qed.

Lemma loaded_countries_le_destinations_witness :
  Total_Countries (kpi_cards sample_df) <= Destinations (kpi_cards sample_df).
Proof.
  apply (loaded_countries_le_destinations sample_sheet sample_df).
  reflexivity.
Defined.

(** ** Loading stage *)

Lemma load_reachable_consistent (s : LoadState) :
  load_reachable s ->
  (data_loaded s = true -> exists frame, df s = Some frame) /\
  (data_loaded s = false -> df s = None).
Proof.
  induction 1 as [|loaded s H IH].
  - split; [discriminate | reflexivity].
  - unfold loading_stage. destruct (data_loaded s) eqn:E; cbn [negb fst].
    + rewrite E. exact IH.
    + destruct loaded as [frame|]; cbn [fst data_loaded df].
      * split; [eauto | discriminate].
      * rewrite E. exact IH.
Qed.

(** X14: in every state a session can reach, [data_loaded] is set exactly
    when a frame is stored.  A pass gets past the loading stage only with a
    stored frame, which it leaves as it is without looking at the file
    again; a failed load leaves the session as it was, so the next pass
    tries again. *)
Theorem loading_stage_keeps_frame (s : LoadState) (H : load_reachable s) :
  (data_loaded s = true <-> exists frame, df s = Some frame)
  /\ (forall loaded f,
        snd (loading_stage loaded s) = Proceed f ->
        (exists frame, f = Some frame /\ df s = Some frame) /\
        fst (loading_stage loaded s) = s)
  /\ (forall loaded error,
        snd (loading_stage loaded s) = LoadStop error ->
        loaded = None /\ fst (loading_stage loaded s) = s)
  /\ (forall loaded,
        snd (loading_stage loaded s) = LoadRerun ->
        exists frame, loaded = Some frame /\
          fst (loading_stage loaded s)
            = {| data_loaded := true; df := Some frame |}).
Proof.
  destruct (load_reachable_consistent s H) as [Ht Hf].
  split; [|split; [|split]].
  - split; [exact Ht|]. intros (frame & E).
    destruct (data_loaded s); [reflexivity|].
    rewrite (Hf eq_refl) in E. discriminate.
  - intros loaded f. unfold loading_stage.
    destruct (data_loaded s) eqn:E; cbn [negb].
    + cbn [snd fst]. intros [= <-]. split; [|reflexivity].
      destruct (Ht eq_refl) as (frame & Ef). exists frame. now rewrite Ef.
    + destruct loaded; discriminate.
  - intros loaded error. unfold loading_stage.
    destruct (data_loaded s); cbn [negb]; [discriminate|].
    destruct loaded; [discriminate|]. split; reflexivity.
  - intros loaded. unfold loading_stage.
    destruct (data_loaded s); cbn [negb]; [discriminate|].
    destruct loaded as [frame|]; [|discriminate].
    intros _. exists frame. split; reflexivity.
Qed.

Lemma loading_stage_keeps_frame_witness :
  let s := fst (loading_stage (Some (load_and_process_data sample_sheet))
                              init_load_state) in
  load_reachable s
  /\ (data_loaded s = true <-> exists frame, df s = Some frame).
Proof.
  intros s.
  assert (R : load_reachable s)
    by (apply load_reachable_pass, load_reachable_init).
  split; [exact R|].
  exact (proj1 (loading_stage_keeps_frame s R)).
Defined.

(** ** Column names *)





(** ** The two modes of the listing *)

Lemma insert_ext_in {A : Type} (cmp1 cmp2 : A -> A -> comparison)
  (x : A) (l : list A) :
  (forall y, In y l -> cmp1 x y = cmp2 x y) ->
  insert cmp1 x l = insert cmp2 x l.
Proof.
  induction l as [|y t IH]; intros H; simpl; [reflexivity|].
  unfold le_of. rewrite (H y (or_introl eq_refl)).
  rewrite IH; [reflexivity|]. intros z Hz. apply H. now right.
Qed.

Lemma stable_sort_ext_in {A : Type} (cmp1 cmp2 : A -> A -> comparison)
  (l : list A) :
  (forall x y, In x l -> In y l -> cmp1 x y = cmp2 x y) ->
  stable_sort cmp1 l = stable_sort cmp2 l.
Proof.
  induction l as [|x t IH]; intros H; simpl; [reflexivity|].
  rewrite IH by (intros; apply H; now right).
  apply insert_ext_in. intros y Hy. apply stable_sort_In in Hy.
  apply H; [now left | now right].
Qed.

(** X16: when no destination of the filtered frame has two suppliers, the
    listing grouped by supplier and the listing by destination only show
    the same table, for either direction of the rates. *)
Theorem listing_modes_agree (filtered_df : DataFrame) (sort_ascending : bool)
  (H : forall a b, In a filtered_df -> In b filtered_df ->
         Destination a = Destination b -> Supplier a = Supplier b) :
  all_rates_display
    (generate_all_rates_by_destination filtered_df sort_ascending)
    = all_rates_destination_only filtered_df sort_ascending.
Proof.
  unfold all_rates_display, generate_all_rates_by_destination,
    all_rates_destination_only.
  rewrite map_map. cbn [Listing.columns Listing.Rate_Display].
  unfold all_rates_sorted, all_rates_destination_sorted, sort_values.
  rewrite (stable_sort_ext_in
             (by_columns [ (on Listing.Destination String.compare, true);
                           (on Listing.Supplier String.compare, true);
                           (on Listing.Rate_inter Qcompare, sort_ascending) ])
             (by_columns [ (on Listing.Destination String.compare, true);
                           (on Listing.Rate_inter Qcompare, sort_ascending) ])).
  - apply map_ext. intros r. reflexivity.
  - intros x y Hx Hy. unfold select_listing in Hx, Hy.
    apply in_map_iff in Hx, Hy.
    destruct Hx as (a & <- & Ha). destruct Hy as (b & <- & Hb).
    unfold by_columns, then_by. unfold directed at 1 2 4. unfold on at 1 2 4.
    cbn [Listing.Destination Listing.Supplier].
    destruct (String.compare (Destination a) (Destination b)) eqn:E;
      try reflexivity.
    apply String.compare_eq_iff in E.
    rewrite (H a b Ha Hb E), string_compare_refl. reflexivity.
Qed.

Lemma listing_modes_agree_witness :
  all_rates_display
    (generate_all_rates_by_destination
       (filter_dataframe sample_df [] [] ["Zed Telecom"] []) false)
    = all_rates_destination_only
        (filter_dataframe sample_df [] [] ["Zed Telecom"] []) false.
Proof.
  apply listing_modes_agree.
  intros a b Ha Hb _.
  apply filter_dataframe_In in Ha, Hb.
  destruct Ha as (_ & _ & _ & [Ha|[Ha|[]]] & _); [discriminate|].
  destruct Hb as (_ & _ & _ & [Hb|[Hb|[]]] & _); [discriminate|].
  now rewrite <- Ha, <- Hb.
Defined.

(** ** Sizes of the views *)

Lemma groupby_length {A : Type} (by_ : list (A -> string)) (df : list A) :
  List.length (groupby by_ df)
    = List.length (unique_from tuple_eqb [] (map (group_key by_) df)).
Proof.
  rewrite <- (length_map fst (groupby by_ df)), groupby_keys.
  apply stable_sort_length.
Qed.

Lemma unique_keys_le {A : Type} (key : A -> list string) (df : list A) :
  List.length (unique_from tuple_eqb [] (map key df)) <= List.length df.
Proof.
  rewrite <- (length_map key df).
  apply NoDup_incl_length;
    [apply (unique_from_NoDup tuple_eqb tuple_eqb_eq)|].
  intros k Hk. now apply (unique_from_In tuple_eqb tuple_eqb_eq) in Hk.
Qed.

(** Grouping by fewer columns gives no more groups. *)
Lemma coarser_groups {A : Type} (key1 key2 : A -> list string)
  (h : list string -> list string) (df : list A) :
  (forall r, key1 r = h (key2 r)) ->
  List.length (unique_from tuple_eqb [] (map key1 df))
    <= List.length (unique_from tuple_eqb [] (map key2 df)).
Proof.
  intros H.
  rewrite <- (length_map h (unique_from tuple_eqb [] (map key2 df))).
  apply NoDup_incl_length;
    [apply (unique_from_NoDup tuple_eqb tuple_eqb_eq)|].
  intros k Hk. apply (unique_from_In tuple_eqb tuple_eqb_eq) in Hk.
  destruct Hk as [Hk _]. apply in_map_iff in Hk.
  destruct Hk as (r & <- & Hr). rewrite H. apply in_map.
  apply (unique_from_In tuple_eqb tuple_eqb_eq).
  split; [now apply in_map | intros []].
Qed.

(** X17: the supplier summary has at most as many rows as the billing
    table, the billing table at most as many as the overview, and the
    overview at most as many as the filtered frame, which is the number of
    rows of the listing in both modes. *)
Theorem views_row_counts (t : DataFrame) (sort_ascending : bool) :
  List.length (supplier_summary t) <= List.length (generate_billing_table t)
  /\ List.length (generate_billing_table t)
     <= List.length (generate_main_table t)
  /\ List.length (generate_main_table t) <= List.length t
  /\ List.length (all_rates_display
                    (generate_all_rates_by_destination t sort_ascending))
     = List.length t
  /\ List.length (all_rates_destination_only t sort_ascending)
     = List.length t.
Proof.
  assert (Ls : List.length (supplier_summary t)
               = List.length (groupby [Supplier] t)).
  { unfold supplier_summary, supplier_summary_sorted, sort_values.
    rewrite length_map, stable_sort_length.
    unfold supplier_summary_agg. apply length_map. }
  assert (Lb : List.length (generate_billing_table t)
               = List.length (groupby [Supplier; Trunk] t)).
  { unfold generate_billing_table. now rewrite !length_map. }
  assert (Lm : List.length (generate_main_table t)
               = List.length
                   (groupby [Country; Destination; Supplier; Trunk] t)).
  { unfold generate_main_table, main_table_sorted, sort_values.
    rewrite length_map, stable_sort_length.
    unfold main_table_agg. apply length_map. }
  rewrite Ls, Lb, Lm, !groupby_length.
  split; [|split; [|split; [|split]]].
  - apply (coarser_groups _ _ (firstn 1)). reflexivity.
  - apply (coarser_groups _ _ (skipn 2)). reflexivity.
  - apply unique_keys_le.
  - unfold all_rates_display, generate_all_rates_by_destination,
      all_rates_sorted, sort_values.
    rewrite !length_map, stable_sort_length. apply length_map.
  - unfold all_rates_destination_only, all_rates_destination_sorted,
      sort_values.
    rewrite length_map, stable_sort_length. apply length_map.
Qed.

(** ** Display text of a rate *)





(** ** The averages of the summary and the average of the frame *)








(** ** Session state at the start of a pass *)

Lemma setdefault_kept {V : Type} (value : option V) (default v : V) :
  value = Some v -> Session.setdefault value default = Some v.
Proof. now intros ->. Qed.

Lemma setdefault_present {V : Type} (value : option V) (default : V) :
  Session.setdefault value default <> None.
Proof. destruct value; discriminate. Qed.

(** X20: [init_session_state], which runs at the start of every pass,
    leaves every key that the session already has with its value, so a
    selection made in one pass is still there in the next; it gives each
    missing key its default, so all six keys are present afterwards, and
    running it again changes nothing.  On a new session the selections are
    the empty lists and nothing is loaded. *)
Theorem init_session_state_keeps_values (s : Session.t) :
  (forall v, Session.data_loaded s = Some v ->
             Session.data_loaded (Session.init_session_state s) = Some v)
  /\ (forall v, Session.df s = Some v ->
                Session.df (Session.init_session_state s) = Some v)
  /\ (forall v, Session.filter_countries s = Some v ->
                Session.filter_countries (Session.init_session_state s)
                  = Some v)
  /\ (forall v, Session.filter_destinations s = Some v ->
                Session.filter_destinations (Session.init_session_state s)
                  = Some v)
  /\ (forall v, Session.filter_suppliers s = Some v ->
                Session.filter_suppliers (Session.init_session_state s)
                  = Some v)
  /\ (forall v, Session.filter_trunks s = Some v ->
                Session.filter_trunks (Session.init_session_state s) = Some v)
  /\ (Session.data_loaded (Session.init_session_state s) <> None /\
      Session.df (Session.init_session_state s) <> None /\
      Session.filter_countries (Session.init_session_state s) <> None /\
      Session.filter_destinations (Session.init_session_state s) <> None /\
      Session.filter_suppliers (Session.init_session_state s) <> None /\
      Session.filter_trunks (Session.init_session_state s) <> None)
  /\ Session.init_session_state (Session.init_session_state s)
     = Session.init_session_state s
  /\ Session.init_session_state Session.fresh
     = Session.Build (Some false) (Some None) (Some []) (Some []) (Some [])
                     (Some []).
Proof.
  unfold Session.init_session_state.
  cbn [Session.data_loaded Session.df Session.filter_countries
       Session.filter_destinations Session.filter_suppliers
       Session.filter_trunks].
  repeat split; try (intros v; apply setdefault_kept);
    try apply setdefault_present.
  destruct s as [[?|] [?|] [?|] [?|] [?|] [?|]]; reflexivity.
Qed.
